(** * Simulation parameters: validation and construction

    A shallow embedding of [apps/simulation/parameters.py]: the
    [Disposition] pair, the [Regions] population aggregate, the
    [Parameters] constructor with its population-source check, and the
    [construct_parameters] request adapter.

    Python values are modelled by the type [value]; raising an exception
    is modelled by the [Raise] branch of [result], and statements are
    sequenced in source order with the bind of that monad, so the first
    exception raised is the one returned. *)

From Stdlib Require Import ZArith QArith String Ascii List Lia.
From stdpp Require Import base option gmap strings.

Local Open Scope string_scope.
Local Open Scope Z_scope.

(** ** Python values, exceptions and results *)

(** A [datetime.date] object. *)
Record date := mkdate { year : Z; month : Z; day : Z }.

(** The primitive values that reach this module: [None], integers,
    floats (finite ones, as the rational they denote: only comparison with
    0 and 1 is ever performed on them), ASCII text, and dates. *)
Inductive value :=
| VNone
| VInt (z : Z)
| VFloat (q : Q)
| VStr (s : string)
| VDate (d : date).

Inductive exn :=
| ValidationError (constraint : string) (offending : value)
| AssertionError (msg : string)
| AttributeError (attr : string)
| IndexError (index : nat)
| ValueError (msg : string)
| OverflowError (msg : string)
| TypeError (msg : string).

Inductive result (A : Type) :=
| Ok (a : A)
| Raise (e : exn).
Arguments Ok {A} a.
Arguments Raise {A} e.

#[global] Instance result_ret : MRet result := fun A a => Ok a.
#[global] Instance result_bind : MBind result := fun A B f m =>
  match m with
  | Ok a => f a
  | Raise e => Raise e
  end.

Definition fails {A} (r : result A) : Prop := exists e, r = Raise e.

Definition is_None (v : value) : bool :=
  match v with VNone => true | _ => false end.

(** ** [datetime.date(year, month, day)] *)

Definition is_leap (y : Z) : bool :=
  (y mod 4 =? 0) && (negb (y mod 100 =? 0) || (y mod 400 =? 0)).

Definition days_in_month (y m : Z) : Z :=
  if (m =? 2) && is_leap y then 29
  else nth (Z.to_nat m) [0; 31; 28; 31; 30; 31; 30; 31; 31; 30; 31; 30; 31] 0.

Definition valid_ymd (y m d : Z) : bool :=
  (1 <=? y) && (y <=? 9999) && (1 <=? m) && (m <=? 12) &&
  (1 <=? d) && (d <=? days_in_month y m).

Definition valid_date (d : date) : bool := valid_ymd (year d) (month d) (day d).

(** The arguments of [date] are first converted to C integers, in
    order; one that does not fit raises [OverflowError]. *)
Definition c_int (z : Z) : result Z :=
  if 2147483647 <? z
  then Raise (OverflowError "signed integer is greater than maximum")
  else if z <? -2147483648
  then Raise (OverflowError "signed integer is less than minimum")
  else Ok z.

Definition datetime_date (y m d : Z) : result date :=
  y ← c_int y;
  m ← c_int m;
  d ← c_int d;
  if negb ((1 <=? y) && (y <=? 9999)) then Raise (ValueError "year is out of range")
  else if negb ((1 <=? m) && (m <=? 12)) then Raise (ValueError "month must be in 1..12")
  else if negb ((1 <=? d) && (d <=? days_in_month y m))
       then Raise (ValueError "day is out of range for month")
  else Ok (mkdate y m d).

(** ** [str.split] and [int] on text *)

(** [s.split(sep)] for a one-character separator: always at least one
    component, empty components kept. *)
Fixpoint split (sep : ascii) (s : string) : list string :=
  match s with
  | EmptyString => [EmptyString]
  | String c r =>
      if Ascii.eqb c sep then EmptyString :: split sep r
      else match split sep r with
           | h :: t => String c h :: t
           | [] => [String c EmptyString]
           end
  end.

Definition is_space (c : ascii) : bool :=
  let n := nat_of_ascii c in
  (Nat.eqb n 32 || (Nat.leb 9 n && Nat.leb n 13))%bool.

Definition digit_of (c : ascii) : option Z :=
  let n := nat_of_ascii c in
  if (Nat.leb 48 n && Nat.leb n 57)%bool then Some (Z.of_nat n - 48) else None.

Fixpoint lstrip (s : string) : string :=
  match s with
  | String c r => if is_space c then lstrip r else s
  | EmptyString => EmptyString
  end.

Fixpoint rstrip (s : string) : string :=
  match s with
  | EmptyString => EmptyString
  | String c r =>
      match rstrip r with
      | EmptyString => if is_space c then EmptyString else String c EmptyString
      | r' => String c r'
      end
  end.

(** Decimal digits, a single underscore allowed between two digits. *)
Fixpoint parse_digits (acc : Z) (after_digit : bool) (s : string) : option Z :=
  match s with
  | EmptyString => if after_digit then Some acc else None
  | String c r =>
      match digit_of c with
      | Some d => parse_digits (10 * acc + d) true r
      | None =>
          if (Ascii.eqb c "_" && after_digit)%bool then parse_digits acc false r
          else None
      end
  end.

(** [int(s)] for text [s], base 10: surrounding whitespace stripped, an
    optional sign, then digits. This is [int] on ASCII text within the
    limit on the length of integer texts (4300 digits by default); the
    statements that depend on what [int] rejects carry both bounds. *)
Definition int (s : string) : result Z :=
  let body := rstrip (lstrip s) in
  let parsed :=
    match body with
    | String "+" r => parse_digits 0 false r
    | String "-" r => Z.opp <$> parse_digits 0 false r
    | _ => parse_digits 0 false body
    end in
  match parsed with
  | Some z => Ok z
  | None => Raise (ValueError "invalid literal for int() with base 10")
  end.

(** [l[i]] on a list. *)
Definition index {A} (l : list A) (i : nat) : result A :=
  match l !! i with
  | Some x => Ok x
  | None => Raise (IndexError i)
  end.

(** ** Validators *)

Module Validators.

(** The numeric reading of a value, when it is a number. *)
Definition number (v : value) : option Q :=
  match v with
  | VInt z => Some (inject_Z z)
  | VFloat q => Some q
  | _ => None
  end.

Definition check (constraint : string) (ok : bool) (v : value) : result value :=
  if ok then Ok v else Raise (ValidationError constraint v).

(** Modelled from the spec: [validators.py] is not among the sources;
    section 4.1 gives [Positive(value)]: succeeds iff [value] is a number
    >= 0, returning the value unchanged. *)
Definition Positive (v : value) : result value :=
  check "Positive"
    (match number v with Some q => Qle_bool 0 q | None => false end) v.

(** Modelled from the spec: [validators.py] is not among the sources;
    section 4.1 gives [StrictlyPositive(value)]: succeeds iff [value] is a
    number > 0. *)
Definition StrictlyPositive (v : value) : result value :=
  check "StrictlyPositive"
    (match number v with Some q => negb (Qle_bool q 0) | None => false end) v.

(** Modelled from the spec: [validators.py] is not among the sources;
    section 4.1 gives [OptionalStrictlyPositive(value)]: succeeds if
    [value] is None, or if [StrictlyPositive] succeeds. *)
Definition OptionalStrictlyPositive (v : value) : result value :=
  if is_None v then Ok v else StrictlyPositive v.

(** Modelled from the spec: [validators.py] is not among the sources;
    section 4.1 gives [Rate(value)]: succeeds iff [value] is a number in
    the closed interval [0, 1]. *)
Definition Rate (v : value) : result value :=
  check "Rate"
    (match number v with
     | Some q => Qle_bool 0 q && Qle_bool q 1
     | None => false
     end) v.

(** Modelled from the spec: [validators.py] is not among the sources;
    section 4.1 gives [Date(value)]: succeeds iff [value] is a valid
    calendar date (not a string), with no other constraint. *)
Definition Date (v : value) : result value :=
  check "Date"
    (match v with VDate d => valid_date d | _ => false end) v.

(** Modelled from the spec: [validators.py] is not among the sources;
    section 4.1 gives [OptionalDate(value)]: succeeds if [value] is None,
    or if [Date] succeeds. *)
Definition OptionalDate (v : value) : result value :=
  if is_None v then Ok v else Date v.

End Validators.
Import Validators.

(** ** Disposition and Regions *)

(** [Disposition = namedtuple("Disposition", ("rate", "days"))] *)
Record Disposition := mkDisposition { rate : value; days : value }.

(** A [Regions] instance is its attribute dictionary. *)
Record Regions := mkRegions { attributes : gmap string Z }.

(** The loop of [Regions.__init__]: [self] is the attribute dictionary
    built so far and [population] the running total; [kwargs] is walked in
    insertion order. *)
Fixpoint Regions_loop (kwargs : list (string * Z))
    (self : gmap string Z) (population : Z) : gmap string Z * Z :=
  match kwargs with
  | [] => (self, population)
  | (key, value) :: rest =>
      Regions_loop rest (<[key := value]> self) (population + value)
  end.

(** The instance [Regions.__init__] builds when every assignment of the
    loop goes through; [Regions_call] below says when it does. *)
Definition Regions_init (kwargs : list (string * Z)) : Regions :=
  let '(self, population) := Regions_loop kwargs ∅ 0 in
  mkRegions (<["population" := population]> self).

(** Attribute access [r.name] for a name that is looked up in the
    instance dictionary: a supplied name or one that neither the class nor
    [object] defines (those all begin with two underscores). *)
Definition getattr (r : Regions) (name : string) : result Z :=
  match attributes r !! name with
  | Some z => Ok z
  | None => Raise (AttributeError name)
  end.

(** Keyword arguments are a dictionary: no name occurs twice. *)
Definition well_formed_kwargs (kwargs : list (string * Z)) : Prop :=
  NoDup (fst <$> kwargs).

(** [setattr(self, key, value)] on a [Regions] instance, [self] being its
    dictionary and [value] an integer: [__class__], [__dict__] and
    [__weakref__] are data descriptors of the type and refuse the
    assignment; every other name is stored in the instance dictionary. *)
Definition setattr (self : gmap string Z) (key : string) (value : Z)
    : result (gmap string Z) :=
  if bool_decide (key = "__class__")
  then Raise (TypeError "__class__ must be set to a class, not 'int' object")
  else if bool_decide (key = "__dict__")
  then Raise (TypeError "__dict__ must be set to a dictionary, not a 'int'")
  else if bool_decide (key = "__weakref__")
  then Raise (AttributeError "__weakref__")
  else Ok (<[key := value]> self).

(** The loop of [Regions.__init__] with the assignments that can raise. *)
Fixpoint Regions_body (kwargs : list (string * Z))
    (self : gmap string Z) (population : Z) : result (gmap string Z * Z) :=
  match kwargs with
  | [] => Ok (self, population)
  | (key, value) :: rest =>
      self' ← setattr self key value;
      Regions_body rest self' (population + value)
  end.

(** The call [Regions(...)]: a keyword named [self] collides with the
    first parameter of [__init__] when the arguments are bound; otherwise
    the body runs. *)
Definition Regions_call (kwargs : list (string * Z)) : result Regions :=
  if bool_decide ("self" ∈ fst <$> kwargs)
  then Raise (TypeError "__init__() got multiple values for argument 'self'")
  else
    '(self, population) ← Regions_body kwargs ∅ 0;
    mret (mkRegions (<["population" := population]> self)).

(** The names a keyword argument of [Regions] cannot have. *)
Definition reserved_names : list string :=
  ["self"; "__class__"; "__dict__"; "__weakref__"].

(** Names beginning with two underscores: the class and [object] define
    no other attribute names. *)
Definition is_dunder (name : string) : bool :=
  match name with
  | String "_" (String "_" _) => true
  | _ => false
  end.

(** ** Parameters *)

(** The attributes of a constructed [Parameters] instance. *)
Record Parameters := mkParameters {
  current_hospitalized : value;
  relative_contact_rate : value;
  hospitalized : Disposition;
  icu : Disposition;
  ventilated : Disposition;
  region : option Regions;
  population : value;
  current_date : value;
  date_first_hospitalized : value;
  doubling_time : value;
  infectious_days : value;
  market_share : value;
  max_y_axis : value;
  n_days : value;
  recovered : value;
  labels : gmap string string;
  dispositions : gmap string Disposition
}.

(** The keyword arguments of a call [Parameters(...)]. The first five are
    required. An argument whose default is [None] is given as the value
    passed, [VNone] (for [region]: [None]) when it is omitted; an argument
    with another default is [None] when omitted and [Some v] when passed. *)
Record Kwargs := mkKwargs {
  kw_current_hospitalized : value;
  kw_hospitalized : Disposition;
  kw_icu : Disposition;
  kw_relative_contact_rate : value;
  kw_ventilated : Disposition;
  kw_current_date : option value;
  kw_date_first_hospitalized : value;
  kw_doubling_time : value;
  kw_infectious_days : option value;
  kw_market_share : option value;
  kw_max_y_axis : value;
  kw_n_days : option value;
  kw_population : value;
  kw_recovered : option value;
  kw_region : option Regions
}.

Definition the_labels : gmap string string :=
  <["hospitalized" := "Hospitalized"]>
  (<["icu" := "ICU"]>
  (<["ventilated" := "Ventilated"]>
  (<["day" := "Day"]>
  (<["date" := "Date"]>
  (<["susceptible" := "Susceptible"]>
  (<["infected" := "Infected"]>
  (<["recovered" := "Recovered"]> ∅))))))).

(** The population-source branch of [Parameters.__init__] (lines 81-88):
    the stored [region] and the validated [population]. *)
Definition resolve_population (region : option Regions) (population : value)
    : result (option Regions * value) :=
  match region, is_None population with
  | Some r, true =>
      total ← getattr r "population";
      p ← StrictlyPositive (VInt total);
      mret (Some r, p)
  | _, false =>
      p ← StrictlyPositive population;
      mret (None, p)
  | None, true =>
      Raise (AssertionError "population or regions must be provided.")
  end.

Section Construction.

(** The value [date.today()] had when the module was loaded: the default
    of [current_date] is evaluated once, with the [def]. *)
Variable today : date.

Definition Parameters_init (kw : Kwargs) : result Parameters :=
  let current_date := default (VDate today) (kw_current_date kw) in
  let infectious_days := default (VInt 14) (kw_infectious_days kw) in
  let market_share := default (VFloat 1) (kw_market_share kw) in
  let n_days := default (VInt 100) (kw_n_days kw) in
  let recovered := default (VInt 0) (kw_recovered kw) in
  self_current_hospitalized ← Positive (kw_current_hospitalized kw);
  self_relative_contact_rate ← Rate (kw_relative_contact_rate kw);
  _ ← Rate (rate (kw_hospitalized kw));
  _ ← Rate (rate (kw_icu kw));
  _ ← Rate (rate (kw_ventilated kw));
  _ ← StrictlyPositive (days (kw_hospitalized kw));
  _ ← StrictlyPositive (days (kw_icu kw));
  _ ← StrictlyPositive (days (kw_ventilated kw));
  '(self_region, self_population) ←
    resolve_population (kw_region kw) (kw_population kw);
  self_current_date ← Date current_date;
  self_date_first_hospitalized ← OptionalDate (kw_date_first_hospitalized kw);
  self_doubling_time ← OptionalStrictlyPositive (kw_doubling_time kw);
  self_infectious_days ← StrictlyPositive infectious_days;
  self_market_share ← Rate market_share;
  self_max_y_axis ← OptionalStrictlyPositive (kw_max_y_axis kw);
  self_n_days ← StrictlyPositive n_days;
  self_recovered ← Positive recovered;
  mret {|
    current_hospitalized := self_current_hospitalized;
    relative_contact_rate := self_relative_contact_rate;
    hospitalized := kw_hospitalized kw;
    icu := kw_icu kw;
    ventilated := kw_ventilated kw;
    region := self_region;
    population := self_population;
    current_date := self_current_date;
    date_first_hospitalized := self_date_first_hospitalized;
    doubling_time := self_doubling_time;
    infectious_days := self_infectious_days;
    market_share := self_market_share;
    max_y_axis := self_max_y_axis;
    n_days := self_n_days;
    recovered := self_recovered;
    labels := the_labels;
    dispositions :=
      <["hospitalized" := kw_hospitalized kw]>
      (<["icu" := kw_icu kw]>
      (<["ventilated" := kw_ventilated kw]> ∅))
  |}.

(** ** construct_parameters *)

(** [request_data.get(key, default)] *)
Definition get (request_data : gmap string value) (key : string) (dflt : value)
    : value :=
  default dflt (request_data !! key).

(** [v.split("-")]: only text has the method. *)
Definition split_dash (v : value) : result (list string) :=
  match v with
  | VStr s => Ok (split "-" s)
  | _ => Raise (AttributeError "split")
  end.

Definition construct_parameters (request_data : gmap string value)
    : result Parameters :=
  split_date ← split_dash (get request_data "dateOfFirstHospitalizedCase" (VStr "2020-7-3"));
  let population := get request_data "population" (VInt 10000) in
  let current_hospitalized := get request_data "currentHospitalized" (VInt 0) in
  let market_share := get request_data "hospitalMarketShare" (VInt 0) in
  y ← index split_date 0 ≫= int;
  m ← index split_date 1 ≫= int;
  d ← index split_date 2 ≫= int;
  date_first_hospitalized ← datetime_date y m d;
  let hospitalized :=
    mkDisposition (get request_data "hospitalizationPercent" (VInt 0))
                  (get request_data "averageHospitalLengthOfStay" (VInt 0)) in
  let icu :=
    mkDisposition (get request_data "icuNeedPercent" (VInt 0))
                  (get request_data "averageDaysInICU" (VInt 0)) in
  let infectious_days := get request_data "infectiousDays" (VInt 0) in
  let relative_contact_rate := get request_data "socialDistancing" (VInt 0) in
  let ventilated :=
    mkDisposition (get request_data "ventilationNeedPercent" (VInt 0))
                  (get request_data "averageDaysOnVentilator" (VInt 0)) in
  let n_days := get request_data "numberOfDaysToProject" (VInt 100) in
  Parameters_init {|
    kw_current_hospitalized := current_hospitalized;
    kw_hospitalized := hospitalized;
    kw_icu := icu;
    kw_relative_contact_rate := relative_contact_rate;
    kw_ventilated := ventilated;
    kw_current_date := None;
    kw_date_first_hospitalized := VDate date_first_hospitalized;
    kw_doubling_time := VNone;
    kw_infectious_days := Some infectious_days;
    kw_market_share := Some market_share;
    kw_max_y_axis := VNone;
    kw_n_days := Some n_days;
    kw_population := population;
    kw_recovered := None;
    kw_region := None
  |}.

End Construction.

(** ** What the validators accept *)

Definition is_positive (v : value) : Prop :=
  exists q, number v = Some q /\ (0 <= q)%Q.

Definition is_strictly_positive (v : value) : Prop :=
  exists q, number v = Some q /\ (0 < q)%Q.

(** A number in the closed interval [0, 1]. *)
Definition is_rate (v : value) : Prop :=
  exists q, number v = Some q /\ (0 <= q)%Q /\ (q <= 1)%Q.

Definition is_date (v : value) : Prop :=
  exists d, v = VDate d /\ valid_date d = true.

Definition optional (P : value -> Prop) (v : value) : Prop :=
  v = VNone \/ P v.

(** The arguments other than the dispositions and the population source
    meet their constraints (defaults filled in as [__init__] does). *)
Definition other_inputs_valid (today : date) (kw : Kwargs) : Prop :=
  is_positive (kw_current_hospitalized kw) /\
  is_rate (kw_relative_contact_rate kw) /\
  is_date (default (VDate today) (kw_current_date kw)) /\
  optional is_date (kw_date_first_hospitalized kw) /\
  optional is_strictly_positive (kw_doubling_time kw) /\
  is_strictly_positive (default (VInt 14) (kw_infectious_days kw)) /\
  is_rate (default (VFloat 1) (kw_market_share kw)) /\
  optional is_strictly_positive (kw_max_y_axis kw) /\
  is_strictly_positive (default (VInt 100) (kw_n_days kw)) /\
  is_positive (default (VInt 0) (kw_recovered kw)).

Definition dispositions_valid (kw : Kwargs) : Prop :=
  is_rate (rate (kw_hospitalized kw)) /\
  is_rate (rate (kw_icu kw)) /\
  is_rate (rate (kw_ventilated kw)) /\
  is_strictly_positive (days (kw_hospitalized kw)) /\
  is_strictly_positive (days (kw_icu kw)) /\
  is_strictly_positive (days (kw_ventilated kw)).

(** ** Sample inputs *)

Definition sample_today : date := mkdate 2020 4 1.

Definition sample_kwargs : Kwargs := {|
  kw_current_hospitalized := VInt 4;
  kw_hospitalized := mkDisposition (VFloat (25 # 1000)) (VInt 7);
  kw_icu := mkDisposition (VFloat (75 # 10000)) (VInt 9);
  kw_relative_contact_rate := VFloat (3 # 10);
  kw_ventilated := mkDisposition (VFloat (5 # 1000)) (VInt 10);
  kw_current_date := None;
  kw_date_first_hospitalized := VNone;
  kw_doubling_time := VNone;
  kw_infectious_days := None;
  kw_market_share := None;
  kw_max_y_axis := VNone;
  kw_n_days := None;
  kw_population := VInt 1000;
  kw_recovered := None;
  kw_region := None
|}.

Definition with_sources (region : option Regions) (population : value)
    (kw : Kwargs) : Kwargs := {|
  kw_current_hospitalized := kw_current_hospitalized kw;
  kw_hospitalized := kw_hospitalized kw;
  kw_icu := kw_icu kw;
  kw_relative_contact_rate := kw_relative_contact_rate kw;
  kw_ventilated := kw_ventilated kw;
  kw_current_date := kw_current_date kw;
  kw_date_first_hospitalized := kw_date_first_hospitalized kw;
  kw_doubling_time := kw_doubling_time kw;
  kw_infectious_days := kw_infectious_days kw;
  kw_market_share := kw_market_share kw;
  kw_max_y_axis := kw_max_y_axis kw;
  kw_n_days := kw_n_days kw;
  kw_population := population;
  kw_recovered := kw_recovered kw;
  kw_region := region
|}.

Definition sample_regions : Regions :=
  Regions_init [("north", 500); ("south", 300)].

(** A request that supplies the four durations and nothing else. *)
Definition durations_request (h i v n : Z) : gmap string value :=
  <["averageHospitalLengthOfStay" := VInt h]>
  (<["averageDaysInICU" := VInt i]>
  (<["averageDaysOnVentilator" := VInt v]>
  (<["infectiousDays" := VInt n]> ∅))).

(** The sum of the supplied values. *)
Definition total (kwargs : list (string * Z)) : Z :=
  foldr (fun kv acc => snd kv + acc) 0 kwargs.



(** ** Derived forms used in the statements *)

(** The instance [__init__] leaves behind when nothing raises, given the
    outcome of the population-source branch. *)
Definition built (today : date) (kw : Kwargs)
    (source : option Regions * value) : Parameters := {|
  current_hospitalized := kw_current_hospitalized kw;
  relative_contact_rate := kw_relative_contact_rate kw;
  hospitalized := kw_hospitalized kw;
  icu := kw_icu kw;
  ventilated := kw_ventilated kw;
  region := fst source;
  population := snd source;
  current_date := default (VDate today) (kw_current_date kw);
  date_first_hospitalized := kw_date_first_hospitalized kw;
  doubling_time := kw_doubling_time kw;
  infectious_days := default (VInt 14) (kw_infectious_days kw);
  market_share := default (VFloat 1) (kw_market_share kw);
  max_y_axis := kw_max_y_axis kw;
  n_days := default (VInt 100) (kw_n_days kw);
  recovered := default (VInt 0) (kw_recovered kw);
  labels := the_labels;
  dispositions :=
    <["hospitalized" := kw_hospitalized kw]>
    (<["icu" := kw_icu kw]>
    (<["ventilated" := kw_ventilated kw]> ∅))
|}.

(** The date conversion of [construct_parameters] (lines 120 and 125). *)
Definition parse_date (v : value) : result date :=
  split_date ← split_dash v;
  y ← index split_date 0 ≫= int;
  m ← index split_date 1 ≫= int;
  d ← index split_date 2 ≫= int;
  datetime_date y m d.

(** The [association_map] of [construct_parameters], once the date is
    converted. *)
Definition association_map (request_data : gmap string value) (d : date)
    : Kwargs := {|
  kw_current_hospitalized := get request_data "currentHospitalized" (VInt 0);
  kw_hospitalized :=
    mkDisposition (get request_data "hospitalizationPercent" (VInt 0))
                  (get request_data "averageHospitalLengthOfStay" (VInt 0));
  kw_icu :=
    mkDisposition (get request_data "icuNeedPercent" (VInt 0))
                  (get request_data "averageDaysInICU" (VInt 0));
  kw_relative_contact_rate := get request_data "socialDistancing" (VInt 0);
  kw_ventilated :=
    mkDisposition (get request_data "ventilationNeedPercent" (VInt 0))
                  (get request_data "averageDaysOnVentilator" (VInt 0));
  kw_current_date := None;
  kw_date_first_hospitalized := VDate d;
  kw_doubling_time := VNone;
  kw_infectious_days := Some (get request_data "infectiousDays" (VInt 0));
  kw_market_share := Some (get request_data "hospitalMarketShare" (VInt 0));
  kw_max_y_axis := VNone;
  kw_n_days := Some (get request_data "numberOfDaysToProject" (VInt 100));
  kw_population := get request_data "population" (VInt 10000);
  kw_recovered := None;
  kw_region := None
|}.

(** ** Objects and references *)

(** A [Parameters] object in the store. Attributes bound to immutable
    values hold them; [region], [labels] and [dispositions] are bound to
    objects and hold references. *)
Record Instance := mkInstance {
  obj_current_hospitalized : value;
  obj_relative_contact_rate : value;
  obj_hospitalized : Disposition;
  obj_icu : Disposition;
  obj_ventilated : Disposition;
  obj_region : option positive;
  obj_population : value;
  obj_current_date : value;
  obj_date_first_hospitalized : value;
  obj_doubling_time : value;
  obj_infectious_days : value;
  obj_market_share : value;
  obj_max_y_axis : value;
  obj_n_days : value;
  obj_recovered : value;
  obj_labels : positive;
  obj_dispositions : positive
}.

Inductive object :=
| ORegions (dict : gmap string Z)
| OLabels (entries : gmap string string)
| ODispositions (entries : gmap string Disposition)
| OParameters (self : Instance).

(** The [Regions] object a reference denotes. *)
Definition region_at (store : gmap positive object) (ref : positive)
    : option Regions :=
  match store !! ref with
  | Some (ORegions dict) => Some (mkRegions dict)
  | _ => None
  end.

(** The object [__init__] fills in, from the attribute values computed,
    the [region] argument and the two dictionaries it creates. Line 82
    binds [self.region] to the argument itself, line 85 to None. *)
Definition instance_of (p : Parameters) (region_arg : option positive)
    (labels_ref dispositions_ref : positive) : Instance := {|
  obj_current_hospitalized := current_hospitalized p;
  obj_relative_contact_rate := relative_contact_rate p;
  obj_hospitalized := hospitalized p;
  obj_icu := icu p;
  obj_ventilated := ventilated p;
  obj_region := match region p with Some _ => region_arg | None => None end;
  obj_population := population p;
  obj_current_date := current_date p;
  obj_date_first_hospitalized := date_first_hospitalized p;
  obj_doubling_time := doubling_time p;
  obj_infectious_days := infectious_days p;
  obj_market_share := market_share p;
  obj_max_y_axis := max_y_axis p;
  obj_n_days := n_days p;
  obj_recovered := recovered p;
  obj_labels := labels_ref;
  obj_dispositions := dispositions_ref
|}.

(** The call [Parameters(...)] against the object store. The [region]
    argument is a reference to the caller's object ([kw] gives the other
    arguments); [__init__] reads its [population] through the reference,
    and on success leaves three new objects: the instance and the
    dictionaries of lines 101 and 112. *)
Definition Parameters_new (today : date) (kw : Kwargs)
    (region_arg : option positive) (store : gmap positive object)
    : result (positive * gmap positive object) :=
  p ← Parameters_init today
        (with_sources (region_arg ≫= region_at store) (kw_population kw) kw);
  let self := fresh (dom store) in
  let labels_ref := fresh ({[self]} ∪ dom store) in
  let dispositions_ref := fresh ({[labels_ref]} ∪ ({[self]} ∪ dom store)) in
  mret (self,
        <[self := OParameters (instance_of p region_arg labels_ref dispositions_ref)]>
        (<[dispositions_ref := ODispositions (dispositions p)]>
        (<[labels_ref := OLabels (labels p)]> store))).

(** The attributes of the instance at [ref], read through its references. *)
Definition snapshot (store : gmap positive object) (ref : positive)
    : option Parameters :=
  match store !! ref with
  | Some (OParameters i) =>
      match store !! obj_labels i, store !! obj_dispositions i with
      | Some (OLabels l), Some (ODispositions d) =>
          region_value ←
            match obj_region i with
            | Some a => Some <$> region_at store a
            | None => Some None
            end;
          Some {|
            current_hospitalized := obj_current_hospitalized i;
            relative_contact_rate := obj_relative_contact_rate i;
            hospitalized := obj_hospitalized i;
            icu := obj_icu i;
            ventilated := obj_ventilated i;
            region := region_value;
            population := obj_population i;
            current_date := obj_current_date i;
            date_first_hospitalized := obj_date_first_hospitalized i;
            doubling_time := obj_doubling_time i;
            infectious_days := obj_infectious_days i;
            market_share := obj_market_share i;
            max_y_axis := obj_max_y_axis i;
            n_days := obj_n_days i;
            recovered := obj_recovered i;
            labels := l;
            dispositions := d
          |}
      | _, _ => None
      end
  | _ => None
  end.

(** The assignment [r.key = value] on the [Regions] object at [ref], for a
    name its instance dictionary takes. *)
Definition assign_region (ref : positive) (key : string) (value : Z)
    (store : gmap positive object) : gmap positive object :=
  alter (fun o => match o with
                  | ORegions dict => ORegions (<[key := value]> dict)
                  | other => other
                  end) ref store.

(** What [instance.region.name] reads, for the instance at [ref]. *)
Definition read_region (store : gmap positive object) (ref : positive)
    (name : string) : option Z :=
  p ← snapshot store ref;
  r ← region p;
  attributes r !! name.

(** A store holding one [Regions] object, north 500 and south 300. *)
Definition sample_store : gmap positive object :=
  <[1%positive := ORegions (attributes sample_regions)]> ∅.

(** The arguments of a construction from that region alone, the attribute
    values it computes, and the store after one and after two such
    constructions. *)
Definition sample_region_kwargs : Kwargs :=
  with_sources None VNone sample_kwargs.

Definition sample_built : Parameters :=
  built sample_today sample_kwargs (Some sample_regions, VInt 800).

Definition sample_store1 : gmap positive object :=
  <[2%positive := OParameters
      (instance_of sample_built (Some 1%positive) 3%positive 4%positive)]>
  (<[4%positive := ODispositions (dispositions sample_built)]>
  (<[3%positive := OLabels the_labels]> sample_store)).

Definition sample_store2 : gmap positive object :=
  <[5%positive := OParameters
      (instance_of sample_built (Some 1%positive) 6%positive 7%positive)]>
  (<[7%positive := ODispositions (dispositions sample_built)]>
  (<[6%positive := OLabels the_labels]> sample_store1)).



(** The fields [construct_parameters] passes meet the constraints
    [Parameters.__init__] checks, each read with the default of its [get]
    call; [today] is the default [current_date]. *)
Definition request_valid (today : date) (request_data : gmap string value)
    : Prop :=
  is_positive (get request_data "currentHospitalized" (VInt 0)) /\
  is_rate (get request_data "socialDistancing" (VInt 0)) /\
  is_rate (get request_data "hospitalizationPercent" (VInt 0)) /\
  is_rate (get request_data "icuNeedPercent" (VInt 0)) /\
  is_rate (get request_data "ventilationNeedPercent" (VInt 0)) /\
  is_strictly_positive (get request_data "averageHospitalLengthOfStay" (VInt 0)) /\
  is_strictly_positive (get request_data "averageDaysInICU" (VInt 0)) /\
  is_strictly_positive (get request_data "averageDaysOnVentilator" (VInt 0)) /\
  is_strictly_positive (get request_data "population" (VInt 10000)) /\
  is_date (VDate today) /\
  is_strictly_positive (get request_data "infectiousDays" (VInt 0)) /\
  is_rate (get request_data "hospitalMarketShare" (VInt 0)) /\
  is_strictly_positive (get request_data "numberOfDaysToProject" (VInt 100)).

(** A request with every field of the form filled in. *)
Definition sample_request : gmap string value :=
  <["dateOfFirstHospitalizedCase" := VStr "2020-3-15"]>
  (<["population" := VInt 250000]>
  (<["currentHospitalized" := VInt 12]>
  (<["hospitalMarketShare" := VFloat (15 # 100)]>
  (<["hospitalizationPercent" := VFloat (25 # 1000)]>
  (<["icuNeedPercent" := VFloat (75 # 10000)]>
  (<["ventilationNeedPercent" := VFloat (5 # 1000)]>
  (<["socialDistancing" := VFloat (3 # 10)]>
  (<["numberOfDaysToProject" := VInt 60]>
  (durations_request 7 9 10 14))))))))).

(** * Properties *)

(** ** The result monad *)

Lemma bind_Ok {A B} (m : result A) (f : A -> result B) (b : B) :
  m ≫= f = Ok b -> exists a, m = Ok a /\ f a = Ok b.
Proof. destruct m as [a|e]; simpl; [eauto | discriminate]. Qed.

Lemma fails_not_Ok {A} (r : result A) (a : A) : fails r -> r <> Ok a.
Proof. intros [e ->]. discriminate. Qed.

(** ** The validators *)

Lemma check_Ok c b v r : check c b v = Ok r -> b = true /\ r = v.
Proof. unfold check. destruct b; [intros [= <-]; auto | discriminate]. Qed.

Lemma Qlt_not_le_bool (x y : Q) : negb (Qle_bool y x) = true <-> (x < y)%Q.
Proof.
  rewrite negb_true_iff. split.
  - intros H. apply Qnot_le_lt. intros Hle.
    apply Qle_bool_iff in Hle. congruence.
  - intros H. destruct (Qle_bool y x) eqn:E; [| reflexivity].
    apply Qle_bool_iff in E. exfalso. exact (Qlt_not_le _ _ H E).
Qed.

Lemma Positive_Ok v r : Positive v = Ok r <-> r = v /\ is_positive v.
Proof.
  unfold Positive, is_positive. split.
  - intros H. apply check_Ok in H as [H ->]. split; [reflexivity |].
    destruct (number v) as [q|]; [| discriminate].
    exists q. split; [reflexivity | by apply Qle_bool_iff].
  - intros [-> (q & -> & Hq)]. apply Qle_bool_iff in Hq. by rewrite Hq.
Qed.

Lemma StrictlyPositive_Ok v r :
  StrictlyPositive v = Ok r <-> r = v /\ is_strictly_positive v.
Proof.
  unfold StrictlyPositive, is_strictly_positive. split.
  - intros H. apply check_Ok in H as [H ->]. split; [reflexivity |].
    destruct (number v) as [q|]; [| discriminate].
    exists q. split; [reflexivity | by apply Qlt_not_le_bool].
  - intros [-> (q & -> & Hq)]. apply Qlt_not_le_bool in Hq. by rewrite Hq.
Qed.

Lemma Rate_Ok v r : Rate v = Ok r <-> r = v /\ is_rate v.
Proof.
  unfold Rate, is_rate. split.
  - intros H. apply check_Ok in H as [H ->]. split; [reflexivity |].
    destruct (number v) as [q|]; [| discriminate].
    apply andb_true_iff in H as [H0 H1].
    exists q. repeat split; [by apply Qle_bool_iff | by apply Qle_bool_iff].
  - intros [-> (q & -> & H0 & H1)].
    apply Qle_bool_iff in H0, H1. by rewrite H0, H1.
Qed.

Lemma Date_Ok v r : Date v = Ok r <-> r = v /\ is_date v.
Proof.
  unfold Date, is_date. split.
  - intros H. apply check_Ok in H as [H ->]. split; [reflexivity |].
    destruct v; try discriminate. eauto.
  - intros [-> (d & -> & Hd)]. by rewrite Hd.
Qed.

Lemma not_optional_None (P : value -> Prop) v :
  is_None v = false -> optional P v <-> P v.
Proof.
  intros H. unfold optional. split; [| auto].
  intros [-> | HP]; [discriminate | exact HP].
Qed.

Lemma OptionalStrictlyPositive_Ok v r :
  OptionalStrictlyPositive v = Ok r <->
  r = v /\ optional is_strictly_positive v.
Proof.
  unfold OptionalStrictlyPositive. destruct (is_None v) eqn:E.
  - destruct v; try discriminate. unfold optional. split.
    + intros [= <-]. auto.
    + intros [-> _]. reflexivity.
  - rewrite StrictlyPositive_Ok, not_optional_None by exact E. reflexivity.
Qed.

Lemma OptionalDate_Ok v r :
  OptionalDate v = Ok r <-> r = v /\ optional is_date v.
Proof.
  unfold OptionalDate. destruct (is_None v) eqn:E.
  - destruct v; try discriminate. unfold optional. split.
    + intros [= <-]. auto.
    + intros [-> _]. reflexivity.
  - rewrite Date_Ok, not_optional_None by exact E. reflexivity.
Qed.

Lemma not_Ok_fails {A} (r : result A) : (forall a, r <> Ok a) -> fails r.
Proof.
  intros H. destruct r as [a|e]; [destruct (H a); reflexivity |].
  exists e. reflexivity.
Qed.

Lemma Rate_fails v : ~ is_rate v -> fails (Rate v).
Proof.
  intros H. apply not_Ok_fails. intros r Hr.
  apply Rate_Ok in Hr as [_ Hr]. exact (H Hr).
Qed.

(** C8. The [Rate] validator succeeds exactly on the numbers of the closed
    interval [0, 1]: on such a value it returns the value unchanged, on
    every other value it fails, and whatever it returns is its argument. *)
Theorem Rate_closed_unit_interval (v : value) :
  (is_rate v <-> Rate v = Ok v) /\
  (~ is_rate v <-> fails (Rate v)) /\
  (forall r, Rate v = Ok r -> r = v).
Proof.
  split; [| split].
  - rewrite Rate_Ok. tauto.
  - split; [apply Rate_fails |].
    intros Hf Hr. apply (fails_not_Ok _ v Hf). apply Rate_Ok. auto.
  - intros r Hr. apply Rate_Ok in Hr. tauto.
Qed.

Lemma Rate_closed_unit_interval_witness :
  Rate (VInt 0) = Ok (VInt 0) /\ Rate (VInt 1) = Ok (VInt 1) /\
  Rate (VFloat (1 # 2)) = Ok (VFloat (1 # 2)) /\
  fails (Rate (VFloat (11 # 10))) /\ fails (Rate (VInt (-1))) /\
  fails (Rate (VStr "0.5")).
Proof.
  split; [| split; [| split; [| split; [| split]]]].
  - apply (Rate_closed_unit_interval (VInt 0)).
    exists (inject_Z 0). split; [reflexivity |]. split; discriminate.
  - apply (Rate_closed_unit_interval (VInt 1)).
    exists (inject_Z 1). split; [reflexivity |]. split; discriminate.
  - apply (Rate_closed_unit_interval (VFloat (1 # 2))).
    exists (1 # 2)%Q. split; [reflexivity |]. split; discriminate.
  - apply (Rate_closed_unit_interval (VFloat (11 # 10))).
    intros (q & [= <-] & _ & H). apply H. reflexivity.
  - apply (Rate_closed_unit_interval (VInt (-1))).
    intros (q & [= <-] & H & _). apply H. reflexivity.
  - apply (Rate_closed_unit_interval (VStr "0.5")).
    intros (q & H & _). discriminate H.
Defined.

(** ** Parameters construction *)

Ltac invert_binds H :=
  repeat (let a := fresh "a" in
          let E := fresh "E" in
          apply bind_Ok in H as (a & E & H)).

Ltac invert_validators :=
  repeat match goal with
  | E : Positive _ = Ok _ |- _ => apply Positive_Ok in E as [-> ?]
  | E : StrictlyPositive _ = Ok _ |- _ => apply StrictlyPositive_Ok in E as [-> ?]
  | E : Rate _ = Ok _ |- _ => apply Rate_Ok in E as [-> ?]
  | E : Date _ = Ok _ |- _ => apply Date_Ok in E as [-> ?]
  | E : OptionalDate _ = Ok _ |- _ => apply OptionalDate_Ok in E as [-> ?]
  | E : OptionalStrictlyPositive _ = Ok _ |- _ =>
      apply OptionalStrictlyPositive_Ok in E as [-> ?]
  end.

Lemma Parameters_init_Ok today kw p :
  Parameters_init today kw = Ok p <->
  dispositions_valid kw /\ other_inputs_valid today kw /\
  exists source,
    resolve_population (kw_region kw) (kw_population kw) = Ok source /\
    p = built today kw source.
Proof.
  unfold Parameters_init, dispositions_valid, other_inputs_valid. split.
  - intros H. invert_binds H. invert_validators.
    match goal with a : (option Regions * value)%type |- _ =>
      destruct a as [reg pop] end.
    invert_binds H. invert_validators.
    injection H as <-.
    split; [tauto |]. split; [tauto |]. exists (reg, pop). split; [assumption |].
    reflexivity.
  - intros ((R1 & R2 & R3 & D1 & D2 & D3) &
            (V1 & V2 & V3 & V4 & V5 & V6 & V7 & V8 & V9 & V10) &
            [reg pop] & Hs & ->).
    rewrite (proj2 (Positive_Ok _ _) (conj eq_refl V1)).
    rewrite (proj2 (Rate_Ok _ _) (conj eq_refl V2)).
    rewrite (proj2 (Rate_Ok _ _) (conj eq_refl R1)).
    rewrite (proj2 (Rate_Ok _ _) (conj eq_refl R2)).
    rewrite (proj2 (Rate_Ok _ _) (conj eq_refl R3)).
    rewrite (proj2 (StrictlyPositive_Ok _ _) (conj eq_refl D1)).
    rewrite (proj2 (StrictlyPositive_Ok _ _) (conj eq_refl D2)).
    rewrite (proj2 (StrictlyPositive_Ok _ _) (conj eq_refl D3)).
    rewrite Hs. simpl.
    rewrite (proj2 (Date_Ok _ _) (conj eq_refl V3)).
    rewrite (proj2 (OptionalDate_Ok _ _) (conj eq_refl V4)).
    rewrite (proj2 (OptionalStrictlyPositive_Ok _ _) (conj eq_refl V5)).
    rewrite (proj2 (StrictlyPositive_Ok _ _) (conj eq_refl V6)).
    rewrite (proj2 (Rate_Ok _ _) (conj eq_refl V7)).
    rewrite (proj2 (OptionalStrictlyPositive_Ok _ _) (conj eq_refl V8)).
    rewrite (proj2 (StrictlyPositive_Ok _ _) (conj eq_refl V9)).
    rewrite (proj2 (Positive_Ok _ _) (conj eq_refl V10)).
    reflexivity.
Qed.

Lemma resolve_population_explicit reg pop :
  pop <> VNone ->
  resolve_population reg pop =
  (p ← StrictlyPositive pop; mret (None, p)).
Proof.
  intros H. unfold resolve_population.
  destruct pop; try congruence; destruct reg; reflexivity.
Qed.

Lemma resolve_population_Ok reg pop source :
  resolve_population reg pop = Ok source ->
  (pop <> VNone /\ is_strictly_positive pop /\ source = (None, pop)) \/
  (pop = VNone /\ exists r z,
      reg = Some r /\ getattr r "population" = Ok z /\
      is_strictly_positive (VInt z) /\ source = (Some r, VInt z)).
Proof.
  intros H. destruct (is_None pop) eqn:E.
  - right. destruct pop; try discriminate. split; [reflexivity |].
    destruct reg as [r|]; [| discriminate]. simpl in H.
    invert_binds H. invert_validators. injection H as <-. eauto 10.
  - left. assert (pop <> VNone) as Hne by (intros ->; discriminate).
    rewrite resolve_population_explicit in H by assumption.
    invert_binds H. invert_validators. injection H as <-. auto.
Qed.

(** Once a population is passed, the [region] argument plays no part. *)
Lemma Parameters_init_region_ignored today kw :
  kw_population kw <> VNone ->
  Parameters_init today kw =
  Parameters_init today (with_sources None (kw_population kw) kw).
Proof.
  intros H. unfold Parameters_init, with_sources.
  cbn [kw_current_hospitalized kw_hospitalized kw_icu kw_relative_contact_rate
       kw_ventilated kw_current_date kw_date_first_hospitalized
       kw_doubling_time kw_infectious_days kw_market_share kw_max_y_axis
       kw_n_days kw_population kw_recovered kw_region].
  rewrite (resolve_population_explicit (kw_region kw) _ H).
  rewrite (resolve_population_explicit None _ H). reflexivity.
Qed.

Lemma Parameters_init_valid today kw p :
  Parameters_init today kw = Ok p -> dispositions_valid kw.
Proof. intros H. apply Parameters_init_Ok in H. tauto. Qed.

Ltac solve_valid :=
  repeat match goal with
  | |- _ /\ _ => split
  | |- is_rate _ => eexists; split; [reflexivity | split; discriminate]
  | |- is_positive _ => eexists; split; [reflexivity | discriminate]
  | |- is_strictly_positive _ => eexists; split; reflexivity
  | |- is_date _ => eexists; split; reflexivity
  | |- optional _ VNone => left; reflexivity
  | |- optional _ _ => right
  end.

Lemma sample_dispositions_valid : dispositions_valid sample_kwargs.
Proof. unfold dispositions_valid. simpl. solve_valid. Defined.

Lemma sample_other_inputs_valid : other_inputs_valid sample_today sample_kwargs.
Proof. unfold other_inputs_valid. simpl. solve_valid. Defined.

(** C4. With [population=1000], no region, every disposition's rate in
    [0, 1] and days strictly positive, and the remaining inputs valid,
    construction succeeds and the instance has [population == 1000] and
    [region] absent. *)
Theorem explicit_population_accepted (today : date) (kw : Kwargs) :
  kw_population kw = VInt 1000 ->
  kw_region kw = None ->
  dispositions_valid kw ->
  other_inputs_valid today kw ->
  exists p, Parameters_init today kw = Ok p /\
            population p = VInt 1000 /\ region p = None.
Proof.
  intros Hpop Hreg Hd Ho. exists (built today kw (None, VInt 1000)).
  split; [| auto]. apply Parameters_init_Ok.
  split; [assumption |]. split; [assumption |].
  exists (None, VInt 1000). split; [| reflexivity].
  rewrite Hpop, Hreg. reflexivity.
Qed.

Lemma explicit_population_accepted_witness :
  exists p, Parameters_init sample_today sample_kwargs = Ok p /\
            population p = VInt 1000 /\ region p = None.
Proof.
  apply (explicit_population_accepted sample_today sample_kwargs).
  - reflexivity.
  - reflexivity.
  - exact sample_dispositions_valid.
  - exact sample_other_inputs_valid.
Defined.

(** C6. Construction applies [Rate] to the rate and [StrictlyPositive] to
    the days of each of [hospitalized], [icu] and [ventilated]: when it
    succeeds all six checks passed and the three dispositions are stored
    as given; when one of the six checks fails, or a rate lies outside
    [0, 1], or a days value is not strictly positive, construction fails. *)
Theorem dispositions_validated (today : date) (kw : Kwargs) :
  (forall p, Parameters_init today kw = Ok p ->
     (Rate (rate (kw_hospitalized kw)) = Ok (rate (kw_hospitalized kw)) /\
      Rate (rate (kw_icu kw)) = Ok (rate (kw_icu kw)) /\
      Rate (rate (kw_ventilated kw)) = Ok (rate (kw_ventilated kw)) /\
      StrictlyPositive (days (kw_hospitalized kw)) = Ok (days (kw_hospitalized kw)) /\
      StrictlyPositive (days (kw_icu kw)) = Ok (days (kw_icu kw)) /\
      StrictlyPositive (days (kw_ventilated kw)) = Ok (days (kw_ventilated kw))) /\
     hospitalized p = kw_hospitalized kw /\
     icu p = kw_icu kw /\
     ventilated p = kw_ventilated kw) /\
  (fails (Rate (rate (kw_hospitalized kw))) \/
   fails (Rate (rate (kw_icu kw))) \/
   fails (Rate (rate (kw_ventilated kw))) \/
   fails (StrictlyPositive (days (kw_hospitalized kw))) \/
   fails (StrictlyPositive (days (kw_icu kw))) \/
   fails (StrictlyPositive (days (kw_ventilated kw))) ->
   fails (Parameters_init today kw)) /\
  (~ dispositions_valid kw -> fails (Parameters_init today kw)).
Proof.
  assert (forall p, Parameters_init today kw = Ok p ->
            Rate (rate (kw_hospitalized kw)) = Ok (rate (kw_hospitalized kw)) /\
            Rate (rate (kw_icu kw)) = Ok (rate (kw_icu kw)) /\
            Rate (rate (kw_ventilated kw)) = Ok (rate (kw_ventilated kw)) /\
            StrictlyPositive (days (kw_hospitalized kw)) = Ok (days (kw_hospitalized kw)) /\
            StrictlyPositive (days (kw_icu kw)) = Ok (days (kw_icu kw)) /\
            StrictlyPositive (days (kw_ventilated kw)) = Ok (days (kw_ventilated kw)))
    as Hchecks.
  { intros p H. apply Parameters_init_valid in H.
    destruct H as (R1 & R2 & R3 & D1 & D2 & D3).
    repeat split; (apply Rate_Ok || apply StrictlyPositive_Ok); auto. }
  split; [| split].
  - intros p H. split; [exact (Hchecks p H) |].
    apply Parameters_init_Ok in H as (_ & _ & source & _ & ->). auto.
  - intros Hf. apply not_Ok_fails. intros p H.
    destruct (Hchecks p H) as (R1 & R2 & R3 & D1 & D2 & D3).
    destruct Hf as [Hf|[Hf|[Hf|[Hf|[Hf|Hf]]]]];
      eapply fails_not_Ok in Hf; eauto.
  - intros Hn. apply not_Ok_fails. intros p H.
    apply Hn. exact (Parameters_init_valid _ _ _ H).
Qed.

Lemma sample_constructs :
  Parameters_init sample_today sample_kwargs =
  Ok (built sample_today sample_kwargs (None, VInt 1000)).
Proof. vm_compute. reflexivity. Qed.

Lemma dispositions_validated_witness :
  hospitalized (built sample_today sample_kwargs (None, VInt 1000)) =
  mkDisposition (VFloat (25 # 1000)) (VInt 7).
Proof.
  apply (proj1 (dispositions_validated sample_today sample_kwargs)
           (built sample_today sample_kwargs (None, VInt 1000))
           sample_constructs).
Defined.

(** C1, as the code has it. Construction fails when neither [region] nor
    [population] is supplied, with the assertion error of line 88 once the
    earlier checks have passed. When a population is supplied the [region]
    argument is ignored, so supplying both proceeds exactly as supplying the
    population alone. Whenever construction succeeds, either a population
    was supplied (it is stored, and [region] is stored absent) or only a
    region was supplied (it is stored, with its total as population). *)
Theorem population_source_resolution (today : date) (kw : Kwargs) :
  (kw_region kw = None -> kw_population kw = VNone ->
   fails (Parameters_init today kw) /\
   (is_positive (kw_current_hospitalized kw) ->
    is_rate (kw_relative_contact_rate kw) ->
    dispositions_valid kw ->
    Parameters_init today kw =
    Raise (AssertionError "population or regions must be provided."))) /\
  (kw_population kw <> VNone ->
   Parameters_init today kw =
   Parameters_init today (with_sources None (kw_population kw) kw)) /\
  (forall p, Parameters_init today kw = Ok p ->
     (kw_population kw <> VNone /\
      region p = None /\ population p = kw_population kw) \/
     (kw_population kw = VNone /\
      exists r z, kw_region kw = Some r /\ region p = Some r /\
                  getattr r "population" = Ok z /\ population p = VInt z)).
Proof.
  split; [| split].
  - intros Hreg Hpop. split.
    + apply not_Ok_fails. intros p H.
      apply Parameters_init_Ok in H as (_ & _ & source & Hs & _).
      rewrite Hreg, Hpop in Hs. discriminate.
    + intros V1 V2 (R1 & R2 & R3 & D1 & D2 & D3). unfold Parameters_init.
      rewrite (proj2 (Positive_Ok _ _) (conj eq_refl V1)).
      rewrite (proj2 (Rate_Ok _ _) (conj eq_refl V2)).
      rewrite (proj2 (Rate_Ok _ _) (conj eq_refl R1)).
      rewrite (proj2 (Rate_Ok _ _) (conj eq_refl R2)).
      rewrite (proj2 (Rate_Ok _ _) (conj eq_refl R3)).
      rewrite (proj2 (StrictlyPositive_Ok _ _) (conj eq_refl D1)).
      rewrite (proj2 (StrictlyPositive_Ok _ _) (conj eq_refl D2)).
      rewrite (proj2 (StrictlyPositive_Ok _ _) (conj eq_refl D3)).
      rewrite Hreg, Hpop. reflexivity.
  - apply Parameters_init_region_ignored.
  - intros p H. apply Parameters_init_Ok in H as (_ & _ & source & Hs & ->).
    apply resolve_population_Ok in Hs
      as [(Hne & _ & ->) | (Hpop & r & z & Hreg & Hz & _ & ->)].
    + left. auto.
    + right. split; [assumption |]. exists r, z. auto.
Qed.

Lemma population_source_resolution_witness :
  fails (Parameters_init sample_today (with_sources None VNone sample_kwargs)) /\
  Parameters_init sample_today
    (with_sources (Some sample_regions) (VInt 1000) sample_kwargs) =
  Parameters_init sample_today
    (with_sources None (VInt 1000)
       (with_sources (Some sample_regions) (VInt 1000) sample_kwargs)).
Proof.
  split.
  - apply (population_source_resolution sample_today
             (with_sources None VNone sample_kwargs)); reflexivity.
  - apply (population_source_resolution sample_today
             (with_sources (Some sample_regions) (VInt 1000) sample_kwargs)).
    discriminate.
Defined.

(** C1, as stated, fails: with both a region and [population=1000]
    supplied, construction does not fail; it returns the instance built
    from the population, with [region] absent. *)
Lemma both_sources_accepted :
  kw_region (with_sources (Some sample_regions) (VInt 1000) sample_kwargs)
    = Some sample_regions /\
  kw_population (with_sources (Some sample_regions) (VInt 1000) sample_kwargs)
    = VInt 1000 /\
  Parameters_init sample_today
    (with_sources (Some sample_regions) (VInt 1000) sample_kwargs)
    = Ok (built sample_today sample_kwargs (None, VInt 1000)) /\
  ~ fails (Parameters_init sample_today
             (with_sources (Some sample_regions) (VInt 1000) sample_kwargs)).
Proof.
  split; [reflexivity |]. split; [reflexivity |].
  assert (Parameters_init sample_today
            (with_sources (Some sample_regions) (VInt 1000) sample_kwargs)
          = Ok (built sample_today sample_kwargs (None, VInt 1000))) as H
    by (vm_compute; reflexivity).
  split; [exact H |]. intros [e He]. rewrite H in He. discriminate.
Qed.

(** ** Two constructions from the same arguments *)

Lemma region_stored today kw p r :
  Parameters_init today kw = Ok p -> region p = Some r -> kw_region kw = Some r.
Proof.
  intros H Hr. apply Parameters_init_Ok in H as (_ & _ & source & Hs & ->).
  apply resolve_population_Ok in Hs
    as [(_ & _ & ->) | (_ & r' & z & Hreg & _ & _ & ->)]; simpl in Hr.
  - discriminate.
  - congruence.
Qed.

Lemma region_at_insert (store : gmap positive object) k o a :
  (forall dict, o <> ORegions dict) ->
  store !! k = None ->
  region_at (<[k := o]> store) a = region_at store a.
Proof.
  intros Ho Hk. unfold region_at.
  destruct (decide (k = a)) as [-> | Hne].
  - rewrite lookup_insert_eq, Hk. destruct o; try reflexivity.
    destruct (Ho dict). reflexivity.
  - rewrite lookup_insert_ne by exact Hne. reflexivity.
Qed.

Lemma region_at_dom (store : gmap positive object) a r :
  region_at store a = Some r -> a ∈ dom store.
Proof.
  unfold region_at. intros H. apply elem_of_dom.
  destruct (store !! a); [eauto | discriminate].
Qed.

Lemma snapshot_instance (store : gmap positive object) ref p region_arg l d :
  store !! ref = Some (OParameters (instance_of p region_arg l d)) ->
  store !! l = Some (OLabels (labels p)) ->
  store !! d = Some (ODispositions (dispositions p)) ->
  (forall r, region p = Some r ->
     exists a, region_arg = Some a /\ region_at store a = Some r) ->
  snapshot store ref = Some p.
Proof.
  intros Href Hl Hd Hreg. unfold snapshot. rewrite Href. simpl.
  rewrite Hl, Hd. destruct p as [? ? ? ? ? reg ? ? ? ? ? ? ? ? ? ? ?].
  simpl in *. destruct reg as [r|].
  - destruct (Hreg r eq_refl) as (a & -> & Ha). rewrite Ha. reflexivity.
  - reflexivity.
Qed.

(** C9, as the code has it. Constructing twice from the same arguments
    gives two distinct objects with equal attributes, each with a labels
    dictionary and a dispositions dictionary of its own, and the second
    construction leaves the first instance as it was. A region passed in is
    not copied: both instances are bound to the caller's [Regions] object. *)
Theorem construction_repeatable (today : date) (kw : Kwargs)
    (region_arg : option positive) (store store1 : gmap positive object)
    (ref1 : positive) :
  Parameters_new today kw region_arg store = Ok (ref1, store1) ->
  exists ref2 store2 i1 i2 p,
    Parameters_new today kw region_arg store1 = Ok (ref2, store2) /\
    store2 !! ref1 = Some (OParameters i1) /\
    store2 !! ref2 = Some (OParameters i2) /\
    ref1 <> ref2 /\
    snapshot store1 ref1 = Some p /\
    snapshot store2 ref1 = Some p /\
    snapshot store2 ref2 = Some p /\
    obj_labels i1 <> obj_labels i2 /\
    obj_dispositions i1 <> obj_dispositions i2 /\
    obj_region i1 = obj_region i2 /\
    (forall r, region p = Some r ->
       obj_region i1 = region_arg /\ obj_region i2 = region_arg /\
       exists a, region_arg = Some a /\ region_at store2 a = Some r).
Proof.
  unfold Parameters_new. intros H.
  apply bind_Ok in H as (p & E & H). injection H as <- <-.
  set (s1 := fresh (dom store)).
  set (l1 := fresh ({[s1]} ∪ dom store)).
  set (d1 := fresh ({[l1]} ∪ ({[s1]} ∪ dom store))).
  set (store1 := <[s1 := OParameters (instance_of p region_arg l1 d1)]>
                 (<[d1 := ODispositions (dispositions p)]>
                 (<[l1 := OLabels (labels p)]> store))).
  pose proof (is_fresh (dom store)) as F1. fold s1 in F1.
  pose proof (is_fresh ({[s1]} ∪ dom store)) as F2. fold l1 in F2.
  pose proof (is_fresh ({[l1]} ∪ ({[s1]} ∪ dom store))) as F3. fold d1 in F3.
  assert (dom store1 = {[s1]} ∪ ({[d1]} ∪ ({[l1]} ∪ dom store))) as Hdom
    by (unfold store1; rewrite !dom_insert_L; reflexivity).
  set (s2 := fresh (dom store1)).
  set (l2 := fresh ({[s2]} ∪ dom store1)).
  set (d2 := fresh ({[l2]} ∪ ({[s2]} ∪ dom store1))).
  pose proof (is_fresh (dom store1)) as G1. fold s2 in G1.
  pose proof (is_fresh ({[s2]} ∪ dom store1)) as G2. fold l2 in G2.
  pose proof (is_fresh ({[l2]} ∪ ({[s2]} ∪ dom store1))) as G3. fold d2 in G3.
  rewrite Hdom in G1, G2, G3.
  clearbody s1 l1 d1 s2 l2 d2.
  assert (l1 <> s1 /\ d1 <> l1 /\ d1 <> s1) as (N1 & N2 & N3)
    by (clear -F2 F3; set_solver).
  assert (s2 <> s1 /\ s2 <> d1 /\ s2 <> l1) as (M1 & M2 & M3)
    by (clear -G1; set_solver).
  assert (l2 <> s2 /\ l2 <> s1 /\ l2 <> d1 /\ l2 <> l1) as (M4 & M5 & M6 & M7)
    by (clear -G2; set_solver).
  assert (d2 <> l2 /\ d2 <> s2 /\ d2 <> s1 /\ d2 <> d1 /\ d2 <> l1)
    as (M8 & M9 & M10 & M11 & M12) by (clear -G3; set_solver).
  assert (forall a, a ∈ dom store ->
            a <> s1 /\ a <> l1 /\ a <> d1 /\ a <> s2 /\ a <> l2 /\ a <> d2)
    as Hold by (clear -F1 F2 F3 G1 G2 G3; set_solver).
  assert (store !! s1 = None /\ store !! l1 = None /\ store !! d1 = None)
    as (E1 & E2 & E3).
  { rewrite <- !not_elem_of_dom. clear -F1 F2 F3. set_solver. }
  assert (forall a, region_at store1 a = region_at store a) as Hat.
  { intros a. unfold store1.
    rewrite region_at_insert; [| discriminate |].
    - rewrite region_at_insert; [| discriminate |].
      + rewrite region_at_insert; [reflexivity | discriminate | exact E2].
      + rewrite lookup_insert_ne by congruence. exact E3.
    - rewrite lookup_insert_ne by congruence.
      rewrite lookup_insert_ne by congruence. exact E1. }
  assert (region_arg ≫= region_at store1 = region_arg ≫= region_at store) as Hsame
    by (destruct region_arg as [a|]; simpl; [apply Hat | reflexivity]).
  rewrite Hsame, E. simpl.
  set (store2 := <[s2 := OParameters (instance_of p region_arg l2 d2)]>
                 (<[d2 := ODispositions (dispositions p)]>
                 (<[l2 := OLabels (labels p)]> store1))).
  assert (forall k, k <> s2 -> k <> d2 -> k <> l2 -> store2 !! k = store1 !! k)
    as Hkeep.
  { intros k K1 K2 K3. unfold store2.
    do 3 (rewrite lookup_insert_ne by congruence). reflexivity. }
  assert (forall r, region p = Some r ->
            exists a, region_arg = Some a /\ region_at store a = Some r /\
                      a ∈ dom store) as Hshared.
  { intros r Hr. apply (region_stored _ _ _ _ E) in Hr. simpl in Hr.
    destruct region_arg as [a|]; [| discriminate]. simpl in Hr.
    exists a. split; [reflexivity |]. split; [exact Hr |].
    exact (region_at_dom _ _ _ Hr). }
  assert (forall a, a ∈ dom store -> region_at store2 a = region_at store a)
    as Hat2.
  { intros a Ha. rewrite <- Hat. unfold region_at.
    destruct (Hold a Ha) as (_ & _ & _ & A1 & A2 & A3).
    rewrite Hkeep by assumption. reflexivity. }
  assert (store1 !! s1 = Some (OParameters (instance_of p region_arg l1 d1)))
    as L1 by (unfold store1; apply lookup_insert_eq).
  assert (store1 !! l1 = Some (OLabels (labels p))) as L2.
  { unfold store1. do 2 (rewrite lookup_insert_ne by congruence).
    apply lookup_insert_eq. }
  assert (store1 !! d1 = Some (ODispositions (dispositions p))) as L3.
  { unfold store1. rewrite lookup_insert_ne by congruence.
    apply lookup_insert_eq. }
  exists s2, store2, (instance_of p region_arg l1 d1),
    (instance_of p region_arg l2 d2), p.
  split; [reflexivity |].
  split; [rewrite Hkeep by congruence; exact L1 |].
  split; [unfold store2; apply lookup_insert_eq |].
  split; [congruence |].
  split.
  { apply (snapshot_instance _ _ _ region_arg l1 d1); try assumption.
    intros r Hr. destruct (Hshared r Hr) as (a & Ha & Hr' & _).
    exists a. rewrite Hat. auto. }
  split.
  { apply (snapshot_instance _ _ _ region_arg l1 d1).
    - rewrite Hkeep by congruence. exact L1.
    - rewrite Hkeep by congruence. exact L2.
    - rewrite Hkeep by congruence. exact L3.
    - intros r Hr. destruct (Hshared r Hr) as (a & Ha & Hr' & Hin).
      exists a. rewrite Hat2 by exact Hin. auto. }
  split.
  { apply (snapshot_instance _ _ _ region_arg l2 d2).
    - unfold store2. apply lookup_insert_eq.
    - unfold store2. do 2 (rewrite lookup_insert_ne by congruence).
      apply lookup_insert_eq.
    - unfold store2. rewrite lookup_insert_ne by congruence.
      apply lookup_insert_eq.
    - intros r Hr. destruct (Hshared r Hr) as (a & Ha & Hr' & Hin).
      exists a. rewrite Hat2 by exact Hin. auto. }
  split; [simpl; congruence |].
  split; [simpl; congruence |].
  split; [reflexivity |].
  intros r Hr. simpl. rewrite Hr.
  split; [reflexivity |]. split; [reflexivity |].
  destruct (Hshared r Hr) as (a & Ha & Hr' & Hin).
  exists a. rewrite Hat2 by exact Hin. auto.
Qed.

Lemma construction_repeatable_witness :
  exists ref2 store2 i1 i2 p,
    Parameters_new sample_today sample_region_kwargs (Some 1%positive)
      sample_store1 = Ok (ref2, store2) /\
    store2 !! 2%positive = Some (OParameters i1) /\
    store2 !! ref2 = Some (OParameters i2) /\
    2%positive <> ref2 /\
    snapshot sample_store1 2%positive = Some p /\
    snapshot store2 2%positive = Some p /\
    snapshot store2 ref2 = Some p /\
    obj_labels i1 <> obj_labels i2 /\
    obj_dispositions i1 <> obj_dispositions i2 /\
    obj_region i1 = obj_region i2 /\
    (forall r, region p = Some r ->
       obj_region i1 = Some 1%positive /\ obj_region i2 = Some 1%positive /\
       exists a, Some 1%positive = Some a /\ region_at store2 a = Some r).
Proof.
  apply (construction_repeatable sample_today sample_region_kwargs
           (Some 1%positive) sample_store).
  vm_compute. reflexivity.
Defined.

(** C9, as stated, fails where it says the instances are independently
    owned: two instances built from the same region are bound to the same
    [Regions] object, so an assignment made to the region through the first
    instance is read back through the second. *)
Lemma shared_region_not_owned :
  Parameters_new sample_today sample_region_kwargs (Some 1%positive)
    sample_store = Ok (2%positive, sample_store1) /\
  Parameters_new sample_today sample_region_kwargs (Some 1%positive)
    sample_store1 = Ok (5%positive, sample_store2) /\
  sample_store2 !! 2%positive =
    Some (OParameters
            (instance_of sample_built (Some 1%positive) 3%positive 4%positive)) /\
  obj_region (instance_of sample_built (Some 1%positive) 3%positive 4%positive)
    = Some 1%positive /\
  read_region sample_store2 5%positive "north" = Some 500 /\
  read_region (assign_region 1%positive "north" 0 sample_store2) 5%positive
    "north" = Some 0.
Proof.
  split; [vm_compute; reflexivity |].
  split; [vm_compute; reflexivity |].
  split; [vm_compute; reflexivity |].
  split; [vm_compute; reflexivity |].
  split; vm_compute; reflexivity.
Qed.

(** ** The request adapter *)

Lemma construct_parameters_unfold today request_data :
  construct_parameters today request_data =
  (d ← parse_date (get request_data "dateOfFirstHospitalizedCase" (VStr "2020-7-3"));
   Parameters_init today (association_map request_data d)).
Proof.
  unfold construct_parameters, parse_date.
  destruct (split_dash _) as [parts|e]; [| reflexivity]. simpl.
  destruct (index parts 0 ≫= int) as [y|e]; [| reflexivity]. simpl.
  destruct (index parts 1 ≫= int) as [m|e]; [| reflexivity]. simpl.
  destruct (index parts 2 ≫= int) as [d|e]; [| reflexivity]. simpl.
  destruct (datetime_date y m d) as [dt|e]; reflexivity.
Qed.

(** C7. The adapter passes [population] (the request's value, 10000 when
    the key is missing) and never passes [region]: whenever it succeeds,
    the instance has [region] absent and that value as [population]. *)
Theorem construct_parameters_population_branch (today : date)
    (request_data : gmap string value) (p : Parameters) :
  construct_parameters today request_data = Ok p ->
  region p = None /\
  population p = get request_data "population" (VInt 10000).
Proof.
  rewrite construct_parameters_unfold. intros H.
  apply bind_Ok in H as (d & _ & H).
  apply Parameters_init_Ok in H as (_ & _ & source & Hs & ->).
  apply resolve_population_Ok in Hs
    as [(_ & _ & ->) | (_ & r & z & Hreg & _)].
  - split; reflexivity.
  - discriminate Hreg.
Qed.




Lemma days_in_month_le y m : days_in_month y m <= 31.
Proof.
  unfold days_in_month. destruct ((m =? 2) && is_leap y); [lia |].
  generalize (Z.to_nat m) as n. intros n.
  do 13 (destruct n as [|n]; [simpl; lia |]).
  destruct n; simpl; lia.
Qed.

Lemma c_int_Ok z : -2147483648 <= z <= 2147483647 -> c_int z = Ok z.
Proof.
  intros H. unfold c_int.
  destruct (2147483647 <? z) eqn:E1; [apply Z.ltb_lt in E1; lia |].
  destruct (z <? -2147483648) eqn:E2; [apply Z.ltb_lt in E2; lia |].
  reflexivity.
Qed.

Lemma c_int_inv z r : c_int z = Ok r -> r = z.
Proof.
  unfold c_int. destruct (2147483647 <? z); [discriminate |].
  destruct (z <? -2147483648); [discriminate | intros [= <-]; reflexivity].
Qed.


Lemma datetime_date_Ok y m d dt :
  datetime_date y m d = Ok dt <-> valid_ymd y m d = true /\ dt = mkdate y m d.
Proof.
  unfold datetime_date, valid_ymd. split.
  - intros H. invert_binds H.
    repeat match goal with E : c_int _ = Ok _ |- _ =>
      apply c_int_inv in E; subst end.
    revert H.
    destruct (1 <=? y), (y <=? 9999), (1 <=? m), (m <=? 12), (1 <=? d),
      (d <=? days_in_month y m); simpl;
      (intros [= <-]; auto) || discriminate.
  - intros [Hv ->].
    repeat (apply andb_true_iff in Hv as [Hv ?]).
    pose proof (days_in_month_le y m).
    rewrite !c_int_Ok by lia. simpl.
    repeat match goal with H : (_ <=? _) = true |- _ => rewrite H; clear H end.
    reflexivity.
Qed.



Lemma index_int_Ok l i z :
  index l i ≫= int = Ok z <-> exists c, l !! i = Some c /\ int c = Ok z.
Proof.
  unfold index. destruct (l !! i) as [c|]; simpl.
  - split; [eauto | intros (c' & [= <-] & H); exact H].
  - split; [discriminate | intros (c' & [=] & _)].
Qed.

(** The conversion succeeds exactly on a text whose first three
    components are integers that make a date. *)
Lemma parse_date_Ok s dt :
  parse_date (VStr s) = Ok dt <->
  exists a b c y m d,
    split "-" s !! 0%nat = Some a /\ split "-" s !! 1%nat = Some b /\
    split "-" s !! 2%nat = Some c /\
    int a = Ok y /\ int b = Ok m /\ int c = Ok d /\
    valid_ymd y m d = true /\ dt = mkdate y m d.
Proof.
  unfold parse_date. simpl. split.
  - intros H.
    do 3 (let a := fresh "a" in let E := fresh "E" in
          apply bind_Ok in H as (a & E & H)).
    match goal with E : (index _ 0 ≫= int) = _ |- _ =>
      apply index_int_Ok in E as (ca & ? & ?) end.
    match goal with E : (index _ 1 ≫= int) = _ |- _ =>
      apply index_int_Ok in E as (cb & ? & ?) end.
    match goal with E : (index _ 2 ≫= int) = _ |- _ =>
      apply index_int_Ok in E as (cc & ? & ?) end.
    apply datetime_date_Ok in H as [? ->].
    exists ca, cb, cc. eauto 12.
  - intros (a & b & c & y & m & d & Ha & Hb & Hc & Hy & Hm & Hd & Hv & ->).
    rewrite (proj2 (index_int_Ok _ 0%nat y)) by eauto. simpl.
    rewrite (proj2 (index_int_Ok _ 1%nat m)) by eauto. simpl.
    rewrite (proj2 (index_int_Ok _ 2%nat d)) by eauto. simpl.
    apply datetime_date_Ok. auto.
Qed.










Lemma construct_parameters_population_branch_witness :
  region (built sample_today
            (association_map (durations_request 7 9 10 14) (mkdate 2020 7 3))
            (None, VInt 10000)) = None /\
  population (built sample_today
            (association_map (durations_request 7 9 10 14) (mkdate 2020 7 3))
            (None, VInt 10000)) = VInt 10000.
Proof.
  apply (construct_parameters_population_branch sample_today
           (durations_request 7 9 10 14)).
  vm_compute. reflexivity.
Defined.

Lemma Z_strictly_positive z : 0 < z -> is_strictly_positive (VInt z).
Proof.
  intros H. exists (inject_Z z). split; [reflexivity |].
  unfold Qlt. simpl. lia.
Qed.

Lemma association_map_durations h i v n d :
  association_map (durations_request h i v n) d = {|
    kw_current_hospitalized := VInt 0;
    kw_hospitalized := mkDisposition (VInt 0) (VInt h);
    kw_icu := mkDisposition (VInt 0) (VInt i);
    kw_relative_contact_rate := VInt 0;
    kw_ventilated := mkDisposition (VInt 0) (VInt v);
    kw_current_date := None;
    kw_date_first_hospitalized := VDate d;
    kw_doubling_time := VNone;
    kw_infectious_days := Some (VInt n);
    kw_market_share := Some (VInt 0);
    kw_max_y_axis := VNone;
    kw_n_days := Some (VInt 100);
    kw_population := VInt 10000;
    kw_recovered := None;
    kw_region := None
  |}.
Proof. vm_compute. reflexivity. Qed.

(** C2, as the code has it. On the empty mapping [construct_parameters]
    fails: the default 0 of [averageHospitalLengthOfStay] is not strictly
    positive. On a request that supplies strictly positive integers for the
    three lengths of stay and for [infectiousDays], and nothing else, it
    succeeds with the remaining defaults: [population == 10000],
    [n_days == 100], the first hospitalisation on 2020-07-03 and a
    hospitalised rate of 0. *)
Theorem defaults_need_durations (today : date) :
  construct_parameters today ∅ =
    Raise (ValidationError "StrictlyPositive" (VInt 0)) /\
  (forall h i v n : Z,
     valid_date today = true -> 0 < h -> 0 < i -> 0 < v -> 0 < n ->
     exists p,
       construct_parameters today (durations_request h i v n) = Ok p /\
       population p = VInt 10000 /\
       n_days p = VInt 100 /\
       date_first_hospitalized p = VDate (mkdate 2020 7 3) /\
       hospitalized p = mkDisposition (VInt 0) (VInt h)).
Proof.
  split; [vm_compute; reflexivity |].
  intros h i v n Htoday Hh Hi Hv Hn.
  exists (built today (association_map (durations_request h i v n)
                         (mkdate 2020 7 3)) (None, VInt 10000)).
  split.
  - rewrite construct_parameters_unfold.
    change (get (durations_request h i v n) "dateOfFirstHospitalizedCase"
              (VStr "2020-7-3")) with (VStr "2020-7-3").
    change (parse_date (VStr "2020-7-3")) with (Ok (mkdate 2020 7 3)).
    simpl mbind. apply Parameters_init_Ok.
    rewrite association_map_durations.
    unfold dispositions_valid, other_inputs_valid. simpl.
    pose proof (Z_strictly_positive h Hh).
    pose proof (Z_strictly_positive i Hi).
    pose proof (Z_strictly_positive v Hv).
    pose proof (Z_strictly_positive n Hn).
    assert (is_date (VDate today)) by (exists today; auto).
    split; [solve_valid; assumption |].
    split; [solve_valid; assumption |].
    exists (None, VInt 10000). split; reflexivity.
  - rewrite association_map_durations. repeat split; reflexivity.
Qed.

Lemma defaults_need_durations_witness :
  exists p,
    construct_parameters sample_today (durations_request 7 9 10 14) = Ok p /\
    population p = VInt 10000 /\
    n_days p = VInt 100 /\
    date_first_hospitalized p = VDate (mkdate 2020 7 3) /\
    hospitalized p = mkDisposition (VInt 0) (VInt 7).
Proof.
  apply (proj2 (defaults_need_durations sample_today) 7 9 10 14);
    reflexivity.
Defined.

(** C2, as stated, fails: whatever the day, [construct_parameters] does
    not succeed on the empty mapping. *)
Lemma empty_request_rejected :
  ~ exists today p, construct_parameters today ∅ = Ok p.
Proof.
  intros (today & p & H). vm_compute in H. discriminate H.
Qed.

(** ** Regions *)

Lemma Regions_loop_total kwargs self pop :
  snd (Regions_loop kwargs self pop) = pop + total kwargs.
Proof.
  revert self pop. induction kwargs as [|[key value] rest IH];
    intros self pop; simpl.
  - lia.
  - rewrite IH. lia.
Qed.

Lemma Regions_loop_other kwargs self pop name :
  name ∉ (fst <$> kwargs) ->
  fst (Regions_loop kwargs self pop) !! name = self !! name.
Proof.
  revert self pop. induction kwargs as [|[key value] rest IH];
    intros self pop Hname; simpl.
  - reflexivity.
  - simpl in Hname. apply not_elem_of_cons in Hname as [Hne Hrest].
    rewrite IH by assumption. apply lookup_insert_ne. congruence.
Qed.

Lemma Regions_loop_supplied kwargs self pop name value :
  well_formed_kwargs kwargs ->
  (name, value) ∈ kwargs ->
  fst (Regions_loop kwargs self pop) !! name = Some value.
Proof.
  unfold well_formed_kwargs. revert self pop.
  induction kwargs as [|[key v] rest IH]; intros self pop Hnd Hin; simpl.
  - apply elem_of_nil in Hin. contradiction.
  - simpl in Hnd. apply NoDup_cons in Hnd as [Hfresh Hnd].
    apply elem_of_cons in Hin as [[= -> ->] | Hin].
    + rewrite Regions_loop_other by assumption. apply lookup_insert_eq.
    + apply IH; assumption.
Qed.

Lemma Regions_init_attributes kwargs :
  attributes (Regions_init kwargs) =
  <["population" := total kwargs]> (fst (Regions_loop kwargs ∅ 0)).
Proof.
  unfold Regions_init.
  pose proof (Regions_loop_total kwargs ∅ 0) as Ht.
  destruct (Regions_loop kwargs ∅ 0) as [self population]. simpl in *.
  rewrite Ht. reflexivity.
Qed.

Lemma Regions_init_population kwargs :
  getattr (Regions_init kwargs) "population" = Ok (total kwargs).
Proof.
  unfold getattr. rewrite Regions_init_attributes, lookup_insert_eq.
  reflexivity.
Qed.

Lemma well_formed_kwargs_decide kwargs :
  bool_decide (NoDup (fst <$> kwargs)) = true -> well_formed_kwargs kwargs.
Proof. intros H. apply bool_decide_eq_true in H. exact H. Qed.

Lemma setattr_Ok self key value :
  key ∉ reserved_names -> setattr self key value = Ok (<[key := value]> self).
Proof.
  intros H. unfold setattr, reserved_names in *.
  rewrite !not_elem_of_cons in H. destruct H as (_ & H1 & H2 & H3 & _).
  rewrite !bool_decide_eq_false_2 by assumption. reflexivity.
Qed.

Lemma setattr_inv self key value self' :
  setattr self key value = Ok self' ->
  self' = <[key := value]> self /\
  key <> "__class__" /\ key <> "__dict__" /\ key <> "__weakref__".
Proof.
  unfold setattr. repeat case_bool_decide; try discriminate.
  intros [= <-]. auto.
Qed.

Lemma Regions_body_Ok kwargs self pop :
  (forall name, name ∈ (fst <$> kwargs) -> name ∉ reserved_names) ->
  Regions_body kwargs self pop = Ok (Regions_loop kwargs self pop).
Proof.
  revert self pop. induction kwargs as [|[key value] rest IH];
    intros self pop Hok; simpl.
  - reflexivity.
  - rewrite setattr_Ok by (apply Hok; simpl; apply list_elem_of_here).
    simpl. apply IH. intros name Hin. apply Hok. simpl.
    apply list_elem_of_further. exact Hin.
Qed.

Lemma Regions_body_inv kwargs self pop out :
  Regions_body kwargs self pop = Ok out ->
  out = Regions_loop kwargs self pop /\
  (forall name, name ∈ (fst <$> kwargs) ->
     name <> "__class__" /\ name <> "__dict__" /\ name <> "__weakref__").
Proof.
  revert self pop. induction kwargs as [|[key value] rest IH];
    intros self pop H; simpl in *.
  - injection H as <-. split; [reflexivity |].
    intros name Hin. apply elem_of_nil in Hin. contradiction.
  - apply bind_Ok in H as (self' & Hset & H).
    apply setattr_inv in Hset as (-> & Hkey).
    apply IH in H as [-> Hrest]. split; [reflexivity |].
    intros name Hin. apply elem_of_cons in Hin as [-> | Hin]; auto.
Qed.

(** The call returns exactly when no keyword has a reserved name, and
    then returns the instance of [Regions_init]. *)
Lemma Regions_call_Ok kwargs r :
  Regions_call kwargs = Ok r <->
  (forall name, name ∈ (fst <$> kwargs) -> name ∉ reserved_names) /\
  r = Regions_init kwargs.
Proof.
  unfold Regions_call, Regions_init. split.
  - case_bool_decide as Hself; [discriminate |]. intros H.
    apply bind_Ok in H as ([self pop] & Hbody & H). injection H as <-.
    apply Regions_body_inv in Hbody as [Hout Hnames].
    rewrite <- Hout. split; [| reflexivity].
    intros name Hin. specialize (Hnames name Hin).
    unfold reserved_names. rewrite !not_elem_of_cons.
    repeat split; try tauto; [congruence | apply not_elem_of_nil].
  - intros [Hok ->].
    rewrite bool_decide_eq_false_2.
    + rewrite (Regions_body_Ok _ _ _ Hok).
      destruct (Regions_loop kwargs ∅ 0). reflexivity.
    + intros Hin. apply (Hok _ Hin). unfold reserved_names.
      apply list_elem_of_here.
Qed.

(** C5, as the code has it. For named integer populations with names a
    keyword of [Regions] can have (not [self], [__class__], [__dict__] or
    [__weakref__]; with one of these the call raises), the call returns an
    instance whose [population] attribute is the sum of all supplied values,
    and every supplied name other than "population" is an attribute holding
    its supplied value. *)
Theorem Regions_sums_population (kwargs : list (string * Z)) :
  well_formed_kwargs kwargs ->
  ((forall name, name ∈ (fst <$> kwargs) -> name ∉ reserved_names) ->
   exists r,
     Regions_call kwargs = Ok r /\
     getattr r "population" = Ok (total kwargs) /\
     (forall name value,
        (name, value) ∈ kwargs -> name <> "population" ->
        getattr r name = Ok value)) /\
  ((exists name, name ∈ (fst <$> kwargs) /\ name ∈ reserved_names) ->
   fails (Regions_call kwargs)).
Proof.
  intros Hwf. split.
  - intros Hok. exists (Regions_init kwargs).
    split; [apply Regions_call_Ok; auto |].
    split; [apply Regions_init_population |].
    intros name value Hin Hne. unfold getattr.
    rewrite Regions_init_attributes, lookup_insert_ne by congruence.
    rewrite (Regions_loop_supplied _ _ _ _ _ Hwf Hin). reflexivity.
  - intros (name & Hin & Hres). apply not_Ok_fails. intros r H.
    apply Regions_call_Ok in H as [Hok _]. exact (Hok name Hin Hres).
Qed.

Lemma Regions_sums_population_witness :
  (exists r,
     Regions_call [("a", 10); ("b", 20); ("c", 5)] = Ok r /\
     getattr r "population" = Ok 35 /\
     (forall name value,
        (name, value) ∈ [("a", 10); ("b", 20); ("c", 5)] ->
        name <> "population" -> getattr r name = Ok value)) /\
  fails (Regions_call [("__class__", 5); ("a", 10)]).
Proof.
  split.
  - apply (Regions_sums_population [("a", 10); ("b", 20); ("c", 5)]).
    + apply well_formed_kwargs_decide. vm_compute. reflexivity.
    + intros name Hin. simpl in Hin. unfold reserved_names.
      rewrite !elem_of_cons, elem_of_nil in Hin.
      rewrite !not_elem_of_cons.
      destruct Hin as [-> | [-> | [-> | []]]];
        repeat split; (discriminate || apply not_elem_of_nil).
  - apply (Regions_sums_population [("__class__", 5); ("a", 10)]).
    + apply well_formed_kwargs_decide. vm_compute. reflexivity.
    + exists "__class__". split.
      * simpl. apply list_elem_of_here.
      * unfold reserved_names. apply list_elem_of_further, list_elem_of_here.
Defined.

(** C5, as stated, fails: a supplied name "population" is not accessible
    with its supplied value once another region is given. *)
Lemma supplied_population_not_kept :
  well_formed_kwargs [("population", 5); ("a", 10)] /\
  ("population", 5) ∈ [("population", 5); ("a", 10)] /\
  getattr (Regions_init [("population", 5); ("a", 10)]) "population" = Ok 15 /\
  getattr (Regions_init [("population", 5); ("a", 10)]) "population" <> Ok 5.
Proof.
  split; [apply well_formed_kwargs_decide; vm_compute; reflexivity |].
  split; [set_solver |].
  split; [vm_compute; reflexivity | vm_compute; discriminate].
Qed.

(** C10. When one of the supplied names is "population", the loop first
    sets the attribute to the supplied value, and the final assignment
    replaces it: the instance's [population] is the sum of all supplied
    values. *)
Theorem population_key_overwritten (kwargs : list (string * Z)) (value : Z) :
  well_formed_kwargs kwargs ->
  ("population", value) ∈ kwargs ->
  fst (Regions_loop kwargs ∅ 0) !! "population" = Some value /\
  getattr (Regions_init kwargs) "population" = Ok (total kwargs).
Proof.
  intros Hwf Hin. split.
  - exact (Regions_loop_supplied _ _ _ _ _ Hwf Hin).
  - apply Regions_init_population.
Qed.

Lemma population_key_overwritten_witness :
  fst (Regions_loop [("population", 5); ("a", 10)] ∅ 0) !! "population" = Some 5 /\
  getattr (Regions_init [("population", 5); ("a", 10)]) "population" = Ok 15.
Proof.
  apply (population_key_overwritten [("population", 5); ("a", 10)] 5).
  - apply well_formed_kwargs_decide. vm_compute. reflexivity.
  - set_solver.
Defined.

(** * Further properties *)

(** ** The population source *)

Lemma Z_strictly_positive_iff z : is_strictly_positive (VInt z) <-> 0 < z.
Proof.
  split; [| apply Z_strictly_positive].
  intros (q & [= <-] & H). revert H. unfold Qlt. simpl. lia.
Qed.

Lemma StrictlyPositive_Raise v :
  ~ is_strictly_positive v ->
  StrictlyPositive v = Raise (ValidationError "StrictlyPositive" v).
Proof.
  intros Hn. destruct (StrictlyPositive v) as [r|e] eqn:E.
  - apply StrictlyPositive_Ok in E as [_ H]. contradiction.
  - unfold StrictlyPositive, check in E.
    destruct (match number v with Some _ => _ | None => _ end);
      [discriminate | symmetry; exact E].
Qed.

Lemma strictly_positive_not_None v : is_strictly_positive v -> v <> VNone.
Proof. intros (q & H & _) ->. discriminate H. Qed.

(** An exception of the population-source branch is the exception of the
    construction, once the eight checks before it have passed. *)
Lemma Parameters_init_source_error today kw e :
  is_positive (kw_current_hospitalized kw) ->
  is_rate (kw_relative_contact_rate kw) ->
  dispositions_valid kw ->
  resolve_population (kw_region kw) (kw_population kw) = Raise e ->
  Parameters_init today kw = Raise e.
Proof.
  intros V1 V2 (R1 & R2 & R3 & D1 & D2 & D3) Hs. unfold Parameters_init.
  rewrite (proj2 (Positive_Ok _ _) (conj eq_refl V1)).
  rewrite (proj2 (Rate_Ok _ _) (conj eq_refl V2)).
  rewrite (proj2 (Rate_Ok _ _) (conj eq_refl R1)).
  rewrite (proj2 (Rate_Ok _ _) (conj eq_refl R2)).
  rewrite (proj2 (Rate_Ok _ _) (conj eq_refl R3)).
  rewrite (proj2 (StrictlyPositive_Ok _ _) (conj eq_refl D1)).
  rewrite (proj2 (StrictlyPositive_Ok _ _) (conj eq_refl D2)).
  rewrite (proj2 (StrictlyPositive_Ok _ _) (conj eq_refl D3)).
  rewrite Hs. reflexivity.
Qed.

(** X1. A construction from regions alone is decided by the sum of the
    regions: with the other inputs valid, [Parameters(region=Regions(...))]
    succeeds when the sum is strictly positive, storing the region and the
    sum as population, whatever the sign of the single values; when the
    sum is zero or negative it raises the error [StrictlyPositive] raises
    on the sum. *)
Theorem region_total_decides (today : date) (kw : Kwargs)
    (kwargs : list (string * Z)) :
  kw_population kw = VNone ->
  kw_region kw = Some (Regions_init kwargs) ->
  dispositions_valid kw ->
  other_inputs_valid today kw ->
  (0 < total kwargs ->
   exists p, Parameters_init today kw = Ok p /\
             population p = VInt (total kwargs) /\
             region p = Some (Regions_init kwargs)) /\
  (total kwargs <= 0 ->
   exists e, StrictlyPositive (VInt (total kwargs)) = Raise e /\
             Parameters_init today kw = Raise e).
Proof.
  intros Hpop Hreg Hd Ho. split.
  - intros Hpos.
    exists (built today kw (Some (Regions_init kwargs), VInt (total kwargs))).
    split; [| auto]. apply Parameters_init_Ok.
    split; [assumption |]. split; [assumption |].
    eexists. split; [| reflexivity].
    rewrite Hpop, Hreg. simpl. rewrite Regions_init_population. simpl.
    rewrite (proj2 (StrictlyPositive_Ok _ _)
               (conj eq_refl (Z_strictly_positive _ Hpos))).
    reflexivity.
  - intros Hle. destruct Ho as (V1 & V2 & _).
    assert (~ is_strictly_positive (VInt (total kwargs))) as Hn
      by (rewrite Z_strictly_positive_iff; lia).
    eexists. split; [exact (StrictlyPositive_Raise _ Hn) |].
    apply Parameters_init_source_error; try assumption.
    rewrite Hpop, Hreg. simpl. rewrite Regions_init_population. simpl.
    rewrite (StrictlyPositive_Raise _ Hn). reflexivity.
Qed.

Lemma region_total_decides_witness :
  (exists p,
     Parameters_init sample_today
       (with_sources (Some (Regions_init [("inflow", 900); ("outflow", -150)]))
          VNone sample_kwargs) = Ok p /\
     population p = VInt (total [("inflow", 900); ("outflow", -150)]) /\
     region p = Some (Regions_init [("inflow", 900); ("outflow", -150)])) /\
  (exists e,
     StrictlyPositive (VInt (total [])) = Raise e /\
     Parameters_init sample_today
       (with_sources (Some (Regions_init [])) VNone sample_kwargs) = Raise e).
Proof.
  split.
  - apply (region_total_decides sample_today
             (with_sources (Some (Regions_init [("inflow", 900); ("outflow", -150)]))
                VNone sample_kwargs) [("inflow", 900); ("outflow", -150)]).
    + reflexivity.
    + reflexivity.
    + exact sample_dispositions_valid.
    + exact sample_other_inputs_valid.
    + reflexivity.
  - apply (region_total_decides sample_today
             (with_sources (Some (Regions_init [])) VNone sample_kwargs) []).
    + reflexivity.
    + reflexivity.
    + exact sample_dispositions_valid.
    + exact sample_other_inputs_valid.
    + discriminate.
Defined.

(** X2. An explicit population decides the construction whatever the
    region argument: with the other inputs valid, a strictly positive
    population is stored unchanged with [region] absent, and any other
    non-None population (zero, negative, not a number) raises the error
    [StrictlyPositive] raises on it. *)
Theorem explicit_population_decides (today : date) (kw : Kwargs) :
  kw_population kw <> VNone ->
  dispositions_valid kw ->
  other_inputs_valid today kw ->
  (is_strictly_positive (kw_population kw) ->
   exists p, Parameters_init today kw = Ok p /\
             population p = kw_population kw /\ region p = None) /\
  (~ is_strictly_positive (kw_population kw) ->
   exists e, StrictlyPositive (kw_population kw) = Raise e /\
             Parameters_init today kw = Raise e).
Proof.
  intros Hne Hd Ho. split.
  - intros Hpos. exists (built today kw (None, kw_population kw)).
    split; [| auto]. apply Parameters_init_Ok.
    split; [assumption |]. split; [assumption |].
    eexists. split; [| reflexivity].
    rewrite resolve_population_explicit by assumption.
    rewrite (proj2 (StrictlyPositive_Ok _ _) (conj eq_refl Hpos)).
    reflexivity.
  - intros Hn. destruct Ho as (V1 & V2 & _).
    eexists. split; [exact (StrictlyPositive_Raise _ Hn) |].
    apply Parameters_init_source_error; try assumption.
    rewrite resolve_population_explicit by assumption.
    rewrite (StrictlyPositive_Raise _ Hn). reflexivity.
Qed.

Lemma explicit_population_decides_witness :
  (exists p,
     Parameters_init sample_today
       (with_sources (Some (Regions_init [])) (VInt 42) sample_kwargs) = Ok p /\
     population p = VInt 42 /\ region p = None) /\
  (exists e,
     StrictlyPositive (VInt 0) = Raise e /\
     Parameters_init sample_today (with_sources None (VInt 0) sample_kwargs)
       = Raise e).
Proof.
  split.
  - apply (explicit_population_decides sample_today
             (with_sources (Some (Regions_init [])) (VInt 42) sample_kwargs)).
    + discriminate.
    + exact sample_dispositions_valid.
    + exact sample_other_inputs_valid.
    + apply Z_strictly_positive. reflexivity.
  - apply (explicit_population_decides sample_today
             (with_sources None (VInt 0) sample_kwargs)).
    + discriminate.
    + exact sample_dispositions_valid.
    + exact sample_other_inputs_valid.
    + intros H. apply (proj1 (Z_strictly_positive_iff 0)) in H.
      discriminate H.
Defined.

(** ** What a constructed instance guarantees *)

(** X3. Every attribute of a constructed instance meets its constraint:
    counts are non-negative, rates lie in [0, 1], durations, horizon and
    population are strictly positive, dates are dates, and the optional
    ones are None or valid. The population is the explicit one with no
    region stored, or the stored region's own total. *)
Theorem constructed_instance_valid (today : date) (kw : Kwargs)
    (p : Parameters) :
  Parameters_init today kw = Ok p ->
  is_positive (current_hospitalized p) /\
  is_rate (relative_contact_rate p) /\
  (is_rate (rate (hospitalized p)) /\ is_strictly_positive (days (hospitalized p))) /\
  (is_rate (rate (icu p)) /\ is_strictly_positive (days (icu p))) /\
  (is_rate (rate (ventilated p)) /\ is_strictly_positive (days (ventilated p))) /\
  is_strictly_positive (population p) /\
  (region p = None \/
   exists r z, region p = Some r /\ getattr r "population" = Ok z /\
               population p = VInt z) /\
  is_date (current_date p) /\
  optional is_date (date_first_hospitalized p) /\
  optional is_strictly_positive (doubling_time p) /\
  is_strictly_positive (infectious_days p) /\
  is_rate (market_share p) /\
  optional is_strictly_positive (max_y_axis p) /\
  is_strictly_positive (n_days p) /\
  is_positive (recovered p).
Proof.
  intros H.
  apply Parameters_init_Ok in H
    as ((R1 & R2 & R3 & D1 & D2 & D3) &
        (V1 & V2 & V3 & V4 & V5 & V6 & V7 & V8 & V9 & V10) &
        source & Hs & ->).
  apply resolve_population_Ok in Hs
    as [(_ & Hpos & ->) | (_ & r & z & _ & Hz & Hpos & ->)]; simpl.
  - repeat (split; [assumption || (split; assumption) || (left; reflexivity) |]).
    assumption.
  - repeat (split; [assumption || (split; assumption) ||
                    (right; exists r, z; auto) |]).
    assumption.
Qed.

Lemma constructed_instance_valid_witness :
  is_strictly_positive
    (population (built sample_today sample_kwargs (None, VInt 1000))) /\
  is_rate (market_share (built sample_today sample_kwargs (None, VInt 1000))).
Proof.
  pose proof (constructed_instance_valid sample_today sample_kwargs _
                sample_constructs) as H.
  split; [apply H | apply H].
Defined.

(** X4. The [dispositions] lookup of a constructed instance has exactly the
    three names "hospitalized", "icu" and "ventilated", each bound to the
    attribute of that name, so every disposition found in it has a rate in
    [0, 1] and strictly positive days. *)
Theorem dispositions_lookup (today : date) (kw : Kwargs) (p : Parameters) :
  Parameters_init today kw = Ok p ->
  dispositions p !! "hospitalized" = Some (hospitalized p) /\
  dispositions p !! "icu" = Some (icu p) /\
  dispositions p !! "ventilated" = Some (ventilated p) /\
  (forall name d,
     dispositions p !! name = Some d ->
     (name = "hospitalized" \/ name = "icu" \/ name = "ventilated") /\
     is_rate (rate d) /\ is_strictly_positive (days d)).
Proof.
  intros H.
  apply Parameters_init_Ok in H
    as ((R1 & R2 & R3 & D1 & D2 & D3) & _ & source & _ & ->). simpl.
  split; [reflexivity |]. split; [reflexivity |]. split; [reflexivity |].
  intros name d Hd.
  apply lookup_insert_Some in Hd as [[<- <-] | [_ Hd]]; [auto |].
  apply lookup_insert_Some in Hd as [[<- <-] | [_ Hd]]; [auto |].
  apply lookup_insert_Some in Hd as [[<- <-] | [_ Hd]]; [auto |].
  rewrite lookup_empty in Hd. discriminate.
Qed.

Lemma dispositions_lookup_witness :
  dispositions (built sample_today sample_kwargs (None, VInt 1000)) !! "icu" =
  Some (icu (built sample_today sample_kwargs (None, VInt 1000))).
Proof.
  apply (dispositions_lookup sample_today sample_kwargs _ sample_constructs).
Defined.

(** X5. The [labels] of an instance do not depend on the arguments: any two
    constructed instances carry the same labels, and every name of the
    [dispositions] lookup has a label. *)
Theorem labels_static (today today' : date) (kw kw' : Kwargs)
    (p p' : Parameters) :
  Parameters_init today kw = Ok p ->
  Parameters_init today' kw' = Ok p' ->
  labels p = labels p' /\
  (forall name, is_Some (dispositions p !! name) -> is_Some (labels p !! name)).
Proof.
  intros H H'.
  apply Parameters_init_Ok in H as (_ & _ & source & _ & ->).
  apply Parameters_init_Ok in H' as (_ & _ & source' & _ & ->). simpl.
  split; [reflexivity |].
  intros name [d Hd].
  apply lookup_insert_Some in Hd as [[<- _] | [_ Hd]];
    [eexists; vm_compute; reflexivity |].
  apply lookup_insert_Some in Hd as [[<- _] | [_ Hd]];
    [eexists; vm_compute; reflexivity |].
  apply lookup_insert_Some in Hd as [[<- _] | [_ Hd]];
    [eexists; vm_compute; reflexivity |].
  rewrite lookup_empty in Hd. discriminate.
Qed.

Lemma labels_static_witness :
  labels (built sample_today sample_kwargs (None, VInt 1000)) =
  labels (built (mkdate 2021 1 1)
            (with_sources (Some sample_regions) VNone sample_kwargs)
            (Some sample_regions, VInt 800)).
Proof.
  apply (labels_static sample_today (mkdate 2021 1 1) sample_kwargs
           (with_sources (Some sample_regions) VNone sample_kwargs)).
  - exact sample_constructs.
  - vm_compute. reflexivity.
Defined.

(** ** The request adapter, field by field *)

Lemma parse_date_valid v d : parse_date v = Ok d -> valid_date d = true.
Proof.
  destruct v as [| | |s|]; try discriminate. intros H.
  apply parse_date_Ok in H as (a & b & c & y & m & d' & H).
  destruct H as (_ & _ & _ & _ & _ & _ & Hv & ->). exact Hv.
Qed.

Lemma resolve_population_None_Ok pop source :
  resolve_population None pop = Ok source <->
  is_strictly_positive pop /\ source = (None, pop).
Proof.
  split.
  - intros H. apply resolve_population_Ok in H
      as [(_ & Hpos & ->) | (_ & r & z & Hreg & _)]; [auto | discriminate].
  - intros [Hpos ->].
    rewrite resolve_population_explicit
      by exact (strictly_positive_not_None _ Hpos).
    rewrite (proj2 (StrictlyPositive_Ok _ _) (conj eq_refl Hpos)).
    reflexivity.
Qed.

Lemma association_map_valid today request_data d :
  valid_date d = true ->
  dispositions_valid (association_map request_data d) /\
  other_inputs_valid today (association_map request_data d) /\
  is_strictly_positive (get request_data "population" (VInt 10000)) <->
  request_valid today request_data.
Proof.
  intros Hd.
  assert (optional is_date (VDate d)) as O1 by (right; exists d; auto).
  assert (forall P, optional P VNone) as O2 by (intros P; left; reflexivity).
  assert (is_positive (VInt 0)) as O3
    by (exists (inject_Z 0); split; [reflexivity | discriminate]).
  unfold dispositions_valid, other_inputs_valid, request_valid, association_map.
  simpl. specialize (O2 is_strictly_positive). tauto.
Qed.

Lemma construct_parameters_Ok today request_data p :
  construct_parameters today request_data = Ok p <->
  exists d,
    parse_date (get request_data "dateOfFirstHospitalizedCase" (VStr "2020-7-3"))
      = Ok d /\
    request_valid today request_data /\
    p = built today (association_map request_data d)
          (None, get request_data "population" (VInt 10000)).
Proof.
  rewrite construct_parameters_unfold. split.
  - intros H. apply bind_Ok in H as (d & Hd & H). exists d.
    split; [exact Hd |].
    apply Parameters_init_Ok in H as (Hdv & Hov & source & Hs & ->).
    apply resolve_population_None_Ok in Hs as [Hpos ->].
    split; [| reflexivity].
    apply (association_map_valid today request_data d
             (parse_date_valid _ _ Hd)). auto.
  - intros (d & Hd & Hv & ->). rewrite Hd. simpl.
    apply (association_map_valid today request_data d
             (parse_date_valid _ _ Hd)) in Hv as (Hdv & Hov & Hpos).
    apply Parameters_init_Ok. split; [exact Hdv |]. split; [exact Hov |].
    eexists. split; [| reflexivity].
    apply resolve_population_None_Ok. auto.
Qed.

Lemma sample_request_valid : request_valid sample_today sample_request.
Proof. unfold request_valid. solve_valid. Defined.

Lemma sample_request_constructs :
  construct_parameters sample_today sample_request =
  Ok (built sample_today (association_map sample_request (mkdate 2020 3 15))
        (None, VInt 250000)).
Proof. vm_compute. reflexivity. Qed.

(** X6. [construct_parameters] succeeds exactly when the date text
    converts to a date and every field it passes, read with the default of
    its [get] call, meets the constraint of [Parameters.__init__] (the
    default current date included). *)
Theorem construct_parameters_succeeds_iff (today : date)
    (request_data : gmap string value) :
  (exists p, construct_parameters today request_data = Ok p) <->
  (exists d,
     parse_date (get request_data "dateOfFirstHospitalizedCase" (VStr "2020-7-3"))
       = Ok d) /\
  request_valid today request_data.
Proof.
  split.
  - intros [p H]. apply construct_parameters_Ok in H as (d & Hd & Hv & _).
    eauto.
  - intros [[d Hd] Hv]. eexists. apply construct_parameters_Ok. eauto.
Qed.

Lemma construct_parameters_succeeds_iff_witness :
  exists p, construct_parameters sample_today sample_request = Ok p.
Proof.
  apply (construct_parameters_succeeds_iff sample_today sample_request).
  split.
  - exists (mkdate 2020 3 15). reflexivity.
  - exact sample_request_valid.
Defined.

(** X7. The four durations have no usable default: a request is accepted
    only if it carries the keys [averageHospitalLengthOfStay],
    [averageDaysInICU], [averageDaysOnVentilator] and [infectiousDays], each
    with a strictly positive number. A request missing one of them is
    rejected, the constructor's own default of 14 infectious days being
    replaced by 0. *)
Theorem durations_required (today : date) (request_data : gmap string value)
    (p : Parameters) :
  construct_parameters today request_data = Ok p ->
  (exists v, request_data !! "averageHospitalLengthOfStay" = Some v /\
             is_strictly_positive v) /\
  (exists v, request_data !! "averageDaysInICU" = Some v /\
             is_strictly_positive v) /\
  (exists v, request_data !! "averageDaysOnVentilator" = Some v /\
             is_strictly_positive v) /\
  (exists v, request_data !! "infectiousDays" = Some v /\
             is_strictly_positive v).
Proof.
  intros H. apply construct_parameters_Ok in H as (d & _ & Hv & _).
  destruct Hv as (_ & _ & _ & _ & _ & D1 & D2 & D3 & _ & _ & D4 & _).
  assert (forall key,
            is_strictly_positive (get request_data key (VInt 0)) ->
            exists v, request_data !! key = Some v /\ is_strictly_positive v)
    as Hkey.
  { intros key. unfold get. destruct (request_data !! key) as [v|]; simpl.
    - eauto.
    - intros H0. apply Z_strictly_positive_iff in H0. lia. }
  auto.
Qed.

Lemma durations_required_witness :
  exists v, sample_request !! "infectiousDays" = Some v /\
            is_strictly_positive v.
Proof.
  apply (durations_required sample_today sample_request _
           sample_request_constructs).
Defined.

(** X8. How an accepted request lands on the instance: each camel-case key
    (or its default) becomes the attribute of the matching name, the market
    share defaulting to 0 rather than to the constructor's 1.0; the first
    hospitalisation date is the converted text, never None; and the
    attributes the adapter does not pass keep the constructor's defaults
    (current date, no doubling time, no y-axis bound, nobody recovered). *)
Theorem request_attribute_mapping (today : date)
    (request_data : gmap string value) (p : Parameters) :
  construct_parameters today request_data = Ok p ->
  current_hospitalized p = get request_data "currentHospitalized" (VInt 0) /\
  relative_contact_rate p = get request_data "socialDistancing" (VInt 0) /\
  hospitalized p =
    mkDisposition (get request_data "hospitalizationPercent" (VInt 0))
                  (get request_data "averageHospitalLengthOfStay" (VInt 0)) /\
  icu p =
    mkDisposition (get request_data "icuNeedPercent" (VInt 0))
                  (get request_data "averageDaysInICU" (VInt 0)) /\
  ventilated p =
    mkDisposition (get request_data "ventilationNeedPercent" (VInt 0))
                  (get request_data "averageDaysOnVentilator" (VInt 0)) /\
  infectious_days p = get request_data "infectiousDays" (VInt 0) /\
  market_share p = get request_data "hospitalMarketShare" (VInt 0) /\
  n_days p = get request_data "numberOfDaysToProject" (VInt 100) /\
  (exists d,
     parse_date (get request_data "dateOfFirstHospitalizedCase" (VStr "2020-7-3"))
       = Ok d /\
     valid_date d = true /\
     date_first_hospitalized p = VDate d) /\
  current_date p = VDate today /\
  doubling_time p = VNone /\
  max_y_axis p = VNone /\
  recovered p = VInt 0.
Proof.
  intros H. apply construct_parameters_Ok in H as (d & Hd & _ & ->). simpl.
  repeat (split; [reflexivity |]).
  split; [| repeat split; reflexivity].
  exists d. split; [exact Hd |]. split; [| reflexivity].
  exact (parse_date_valid _ _ Hd).
Qed.

Lemma request_attribute_mapping_witness :
  market_share
    (built sample_today (association_map sample_request (mkdate 2020 3 15))
       (None, VInt 250000)) =
  get sample_request "hospitalMarketShare" (VInt 0).
Proof.
  apply (request_attribute_mapping sample_today sample_request _
           sample_request_constructs).
Defined.

(** ** The date text, edge cases *)

(** X9. A date value that is not text (a number, None) is rejected before
    anything else is looked at: it has no [split], whatever the other
    fields hold. *)
Theorem non_text_date_rejected (today : date)
    (request_data : gmap string value) (v : value) :
  request_data !! "dateOfFirstHospitalizedCase" = Some v ->
  (forall s, v <> VStr s) ->
  construct_parameters today request_data = Raise (AttributeError "split").
Proof.
  intros Hv Hnot. unfold construct_parameters, get. rewrite Hv. simpl.
  destruct v as [| | |s|]; try reflexivity.
  destruct (Hnot s). reflexivity.
Qed.

Lemma non_text_date_rejected_witness :
  construct_parameters sample_today
    (<["dateOfFirstHospitalizedCase" := VInt 20200703]> sample_request) =
  Raise (AttributeError "split").
Proof.
  apply (non_text_date_rejected sample_today _ (VInt 20200703)).
  - reflexivity.
  - discriminate.
Defined.

Lemma int_Raise s e :
  int s = Raise e -> e = ValueError "invalid literal for int() with base 10".
Proof.
  unfold int.
  destruct (match rstrip (lstrip s) with
            | EmptyString => _ | String _ _ => _ end);
    [discriminate | intros [= <-]; reflexivity].
Qed.

Lemma index_int_lookup (parts : list string) (i : nat) (c : string) :
  parts !! i = Some c -> index parts i ≫= int = int c.
Proof. intros H. unfold index. rewrite H. reflexivity. Qed.

Lemma int_then_Raise {B} (c : string) (k : Z -> result B) :
  (forall z, k z = Raise (ValueError "invalid literal for int() with base 10")) ->
  int c ≫= k = Raise (ValueError "invalid literal for int() with base 10").
Proof.
  intros Hk. destruct (int c) as [z|e] eqn:E; simpl.
  - apply Hk.
  - apply int_Raise in E. rewrite E. reflexivity.
Qed.

Lemma parse_date_empty_component (s : string) (i : nat) :
  (i < 3)%nat ->
  split "-" s !! i = Some "" ->
  parse_date (VStr s) =
  Raise (ValueError "invalid literal for int() with base 10").
Proof.
  intros Hi Hempty. unfold parse_date. simpl.
  set (parts := split "-" s) in *.
  assert (int "" = Raise (ValueError "invalid literal for int() with base 10"))
    as Hint by reflexivity.
  destruct i as [|[|[|i]]]; [| | | lia].
  - rewrite (index_int_lookup _ _ _ Hempty), Hint. reflexivity.
  - destruct (lookup_lt_is_Some_2 parts 0) as [a Ha];
      [apply lookup_lt_Some in Hempty; lia |].
    rewrite (index_int_lookup _ _ _ Ha), (index_int_lookup _ _ _ Hempty), Hint.
    apply int_then_Raise. reflexivity.
  - destruct (lookup_lt_is_Some_2 parts 0) as [a Ha];
      [apply lookup_lt_Some in Hempty; lia |].
    destruct (lookup_lt_is_Some_2 parts 1) as [b Hb];
      [apply lookup_lt_Some in Hempty; lia |].
    rewrite (index_int_lookup _ _ _ Ha), (index_int_lookup _ _ _ Hb),
      (index_int_lookup _ _ _ Hempty), Hint.
    apply int_then_Raise. intros y.
    apply int_then_Raise. reflexivity.
Qed.

(** X10. The separator doubles as no minus sign: a date text with an empty
    component among its first three (a leading "-" as of a negative year,
    two "-" in a row) is rejected with the [ValueError] of [int], whatever
    the other fields hold. *)
Theorem empty_component_rejected (today : date)
    (request_data : gmap string value) (s : string) (i : nat) :
  get request_data "dateOfFirstHospitalizedCase" (VStr "2020-7-3") = VStr s ->
  (i < 3)%nat ->
  split "-" s !! i = Some "" ->
  construct_parameters today request_data =
  Raise (ValueError "invalid literal for int() with base 10").
Proof.
  intros Hget Hi Hempty.
  rewrite construct_parameters_unfold, Hget.
  rewrite (parse_date_empty_component s i Hi Hempty). reflexivity.
Qed.

Lemma empty_component_rejected_witness :
  construct_parameters sample_today
    (<["dateOfFirstHospitalizedCase" := VStr "-2020-7-3"]> sample_request) =
  Raise (ValueError "invalid literal for int() with base 10") /\
  construct_parameters sample_today
    (<["dateOfFirstHospitalizedCase" := VStr "2020--7-3"]> sample_request) =
  Raise (ValueError "invalid literal for int() with base 10").
Proof.
  split.
  - apply (empty_component_rejected sample_today _ "-2020-7-3" 0);
      [reflexivity | lia | reflexivity].
  - apply (empty_component_rejected sample_today _ "2020--7-3" 1);
      [reflexivity | lia | reflexivity].
Defined.

(** ** Regions, beyond the total *)

Lemma total_Permutation (kwargs kwargs' : list (string * Z)) :
  kwargs ≡ₚ kwargs' -> total kwargs = total kwargs'.
Proof.
  induction 1 as [| [k v] l l' _ IH | [k v] [k' v'] l | l l' l'' _ IH1 _ IH2];
    simpl in *; lia.
Qed.

Lemma well_formed_kwargs_Permutation (kwargs kwargs' : list (string * Z)) :
  kwargs ≡ₚ kwargs' -> well_formed_kwargs kwargs -> well_formed_kwargs kwargs'.
Proof. unfold well_formed_kwargs. intros H. rewrite H. auto. Qed.

Lemma Regions_loop_Permutation (kwargs kwargs' : list (string * Z)) name :
  well_formed_kwargs kwargs ->
  kwargs ≡ₚ kwargs' ->
  fst (Regions_loop kwargs ∅ 0) !! name = fst (Regions_loop kwargs' ∅ 0) !! name.
Proof.
  intros Hwf Hperm.
  pose proof (well_formed_kwargs_Permutation _ _ Hperm Hwf) as Hwf'.
  destruct (decide (name ∈ fst <$> kwargs)) as [Hin | Hout].
  - apply list_elem_of_fmap in Hin as ([k v] & -> & Hin). simpl.
    rewrite (Regions_loop_supplied _ _ _ _ _ Hwf Hin).
    rewrite Hperm in Hin.
    rewrite (Regions_loop_supplied _ _ _ _ _ Hwf' Hin). reflexivity.
  - rewrite (Regions_loop_other kwargs) by assumption.
    rewrite Hperm in Hout.
    rewrite (Regions_loop_other kwargs') by assumption. reflexivity.
Qed.

(** X11. The order in which the regions are given is irrelevant: two
    keyword-argument lists that are permutations of each other build the
    same instance, attribute for attribute. *)
Theorem Regions_order_irrelevant (kwargs kwargs' : list (string * Z)) :
  well_formed_kwargs kwargs ->
  kwargs ≡ₚ kwargs' ->
  Regions_init kwargs = Regions_init kwargs'.
Proof.
  intros Hwf Hperm.
  assert (attributes (Regions_init kwargs) = attributes (Regions_init kwargs'))
    as Hattr.
  { rewrite !Regions_init_attributes, (total_Permutation _ _ Hperm).
    apply map_eq. intros name.
    destruct (decide (name = "population")) as [-> | Hne].
    - rewrite !lookup_insert_eq. reflexivity.
    - rewrite !lookup_insert_ne by congruence.
      apply Regions_loop_Permutation; assumption. }
  destruct (Regions_init kwargs), (Regions_init kwargs'). simpl in Hattr.
  rewrite Hattr. reflexivity.
Qed.

Lemma Regions_order_irrelevant_witness :
  Regions_init [("north", 500); ("south", 300); ("east", 40)] =
  Regions_init [("east", 40); ("north", 500); ("south", 300)].
Proof.
  apply (Regions_order_irrelevant
           [("north", 500); ("south", 300); ("east", 40)]
           [("east", 40); ("north", 500); ("south", 300)]).
  - apply well_formed_kwargs_decide. vm_compute. reflexivity.
  - symmetry.
    change [("north", 500); ("south", 300); ("east", 40)]
      with (app [("north", 500); ("south", 300)] [("east", 40)]).
    apply Permutation_cons_append.
Defined.

Lemma Regions_loop_is_Some kwargs (self : gmap string Z) pop name :
  is_Some (fst (Regions_loop kwargs self pop) !! name) <->
  name ∈ (fst <$> kwargs) \/ is_Some (self !! name).
Proof.
  revert self pop. induction kwargs as [|[key value] rest IH];
    intros self pop; simpl.
  - rewrite elem_of_nil. tauto.
  - rewrite IH, elem_of_cons.
    destruct (decide (key = name)) as [-> | Hne].
    + rewrite lookup_insert_eq. split; [auto | intros _; right; eauto].
    + rewrite lookup_insert_ne by assumption.
      split; [tauto | intros [[Heq | H] | H]; [congruence | auto | auto]].
Qed.

(** X12. An instance returned by [Regions(...)] has the supplied names
    and "population" as attributes and, among the names that do not begin
    with two underscores, nothing else: reading one of the former succeeds,
    reading any other such name raises [AttributeError]. *)
Theorem Regions_attribute_names (kwargs : list (string * Z)) (r : Regions)
    (name : string) :
  Regions_call kwargs = Ok r ->
  is_dunder name = false ->
  (name ∈ (fst <$> kwargs) \/ name = "population" <->
   exists z, getattr r name = Ok z) /\
  (name ∉ (fst <$> kwargs) -> name <> "population" ->
   getattr r name = Raise (AttributeError name)).
Proof.
  intros Hcall _. apply Regions_call_Ok in Hcall as [_ ->].
  assert (is_Some (attributes (Regions_init kwargs) !! name) <->
          name ∈ (fst <$> kwargs) \/ name = "population") as Hdom.
  { rewrite Regions_init_attributes.
    destruct (decide (name = "population")) as [-> | Hne].
    - rewrite lookup_insert_eq. split; [auto | eauto].
    - rewrite lookup_insert_ne by congruence.
      rewrite Regions_loop_is_Some, lookup_empty.
      split; [intros [H | [z [=]]]; auto | intros [H | H]; [auto | congruence]]. }
  unfold getattr. split.
  - rewrite <- Hdom.
    destruct (attributes (Regions_init kwargs) !! name) as [z|].
    + split; eauto.
    + split; [intros [z [=]] | intros [z [=]]].
  - intros Hout Hne.
    destruct (attributes (Regions_init kwargs) !! name) as [z|] eqn:E;
      [| reflexivity].
    assert (is_Some (Some z)) as Hs by eauto.
    apply Hdom in Hs as [H | H]; contradiction.
Qed.

Lemma Regions_attribute_names_witness :
  Regions_call [("north", 500); ("south", 300)] =
    Ok (Regions_init [("north", 500); ("south", 300)]) /\
  getattr (Regions_init [("north", 500); ("south", 300)]) "west" =
    Raise (AttributeError "west").
Proof.
  assert (Regions_call [("north", 500); ("south", 300)] =
          Ok (Regions_init [("north", 500); ("south", 300)])) as Hcall
    by (vm_compute; reflexivity).
  split; [exact Hcall |].
  apply (Regions_attribute_names [("north", 500); ("south", 300)] _ "west"
           Hcall).
  - reflexivity.
  - simpl. rewrite !not_elem_of_cons.
    repeat split; try discriminate. apply not_elem_of_nil.
  - discriminate.
Defined.

(** X13. A request without the key [dateOfFirstHospitalizedCase] is read
    as if it said "2020-7-3": when it is accepted, the first
    hospitalisation is dated 3 July 2020. *)
Theorem missing_date_defaults (today : date)
    (request_data : gmap string value) (p : Parameters) :
  request_data !! "dateOfFirstHospitalizedCase" = None ->
  construct_parameters today request_data = Ok p ->
  date_first_hospitalized p = VDate (mkdate 2020 7 3).
Proof.
  intros Hmissing H.
  apply construct_parameters_Ok in H as (d & Hd & _ & ->). simpl.
  unfold get in Hd. rewrite Hmissing in Hd. simpl in Hd.
  change (parse_date (VStr "2020-7-3")) with (Ok (mkdate 2020 7 3)) in Hd.
  injection Hd as <-. reflexivity.
Qed.

Lemma missing_date_defaults_witness :
  date_first_hospitalized
    (built sample_today
       (association_map (durations_request 7 9 10 14) (mkdate 2020 7 3))
       (None, VInt 10000)) = VDate (mkdate 2020 7 3).
Proof.
  apply (missing_date_defaults sample_today (durations_request 7 9 10 14)).
  - reflexivity.
  - vm_compute. reflexivity.
Defined.
